(** * A pygame button widget: embedding of [button_class.py]

    The [Button] class of [button_class.py] is embedded as a record with one
    function per method.  Mutation of [self] is explicit state passing: a
    method that assigns attributes returns the updated record.  The two
    pieces of state outside the instance are made explicit too: the class
    level id counter ([Button.nextid]) is threaded through construction by a
    small state monad, and the millisecond clock ([pygame.time.get_ticks])
    is an argument of [clicked]. *)

From Stdlib Require Import ZArith QArith Qround Qabs List String Ascii Bool Lia.
From Stdlib Require Import DecimalString DecimalNat Sorted FinFun SpecFloat.
Import ListNotations.

Local Open Scope string_scope.
Local Open Scope Z_scope.

(** ** Python values used by the class *)

(** A colour is the tuple of channels the caller passes, [(r, g, b)] or
    [(r, g, b, a)]. *)
Definition Color := list Z.

(** [int(x)] on a number: truncation toward zero.  A finite float is a
    rational, so the conversion is stated on [Q]. *)
Definition py_int (x : Q) : Z := Z.quot (Qnum x) (Zpos (Qden x)).

(** A Python [float] is an IEEE 754 binary64 number: 53 bits of mantissa,
    infinities at exponent 1024, operations rounded to nearest, ties to
    even. *)
Definition float : Type := spec_float.

(** [float(n)] for an integer [n], as Python converts the integer operand of
    a mixed product: the nearest double.  An integer beyond the range of a
    double raises [OverflowError] in the source; here it gives an infinity,
    which no later step accepts. *)
Definition float_of_int (n : Z) : float := binary_normalize 53 1024 n 0 false.

(** [x * y] on floats. *)
Definition float_mul (x y : float) : float := SFmul 53 1024 x y.

(** An integer as an unrounded operand. *)
Definition exact_int (n : Z) : float :=
  match n with
  | Z0 => S754_zero false
  | Zpos p => S754_finite false p 0
  | Zneg p => S754_finite true p 0
  end.

(** [a / b] on integers, Python's true division: the double nearest to the
    exact quotient.  It is also the value of a decimal literal, [truediv 7
    10] for [.7].  A quotient beyond the range of a double, or [b = 0],
    raises in the source; here it gives an infinity or a NaN, which no
    later step accepts. *)
Definition truediv (a b : Z) : float :=
  SFdiv 53 1024 (exact_int a) (exact_int b).

(** The rational a finite float stands for; [None] for an infinity or a
    NaN. *)
Definition float_value (x : float) : option Q :=
  match x with
  | S754_zero _ => Some (0 # 1)
  | S754_finite s m e =>
      let n := if s then Zneg m else Zpos m in
      Some (match e with
            | Zneg p => n # (2 ^ p)%positive
            | _ => inject_Z (n * 2 ^ e)
            end)
  | S754_infinity _ | S754_nan => None
  end.

(** [int(x)] on a float; [None] is the [OverflowError] or [ValueError]
    raised for an infinity or a NaN. *)
Definition py_int_float (x : float) : option Z :=
  option_map py_int (float_value x).


(** A Python [str] is held as its UTF-8 encoding.  A byte [10xxxxxx]
    continues a character. *)
Definition continuation_byte (a : ascii) : bool :=
  match a with
  | Ascii _ _ _ _ _ _ b6 b7 => b7 && negb b6
  end.

(** [len(s)] on a [str]: the number of characters, not of bytes. *)
Fixpoint py_len (s : string) : nat :=
  match s with
  | EmptyString => O
  | String a rest =>
      if continuation_byte a then py_len rest else S (py_len rest)
  end.

(** [x > y] on numbers. *)
Definition py_gt (x y : Q) : bool := negb (Qle_bool x y).

(** Truthiness of an attribute that is [None] or an integer: [None] and [0]
    are both falsy. *)
Definition py_truthy (v : option Z) : bool :=
  match v with
  | None => false
  | Some n => negb (n =? 0)
  end.

(** ['%i' % n] for a counter value. *)
Definition format_i (n : nat) : string := NilZero.string_of_uint (Nat.to_uint n).

(** ** The host framework *)

(** Modelled from the spec: the rectangle abstraction of the host framework
    (section 6, anchor-point get and set).  A rectangle is [x, y, w, h] in
    integers; the anchors follow pygame's integer arithmetic, the centre
    being half the extent rounded down. *)
Record Rect : Type := MkRect { rx : Z; ry : Z; rw : Z; rh : Z }.

Definition half (n : Z) : Z := Z.shiftr n 1.

Definition topleft (r : Rect) : Z * Z := (rx r, ry r).
Definition topright (r : Rect) : Z * Z := (rx r + rw r, ry r).
Definition bottomleft (r : Rect) : Z * Z := (rx r, ry r + rh r).
Definition bottomright (r : Rect) : Z * Z := (rx r + rw r, ry r + rh r).
Definition center (r : Rect) : Z * Z := (rx r + half (rw r), ry r + half (rh r)).
Definition left (r : Rect) : Z := rx r.
Definition right (r : Rect) : Z := rx r + rw r.
Definition centery (r : Rect) : Z := ry r + half (rh r).

Definition set_topleft (p : Z * Z) (r : Rect) : Rect :=
  MkRect (fst p) (snd p) (rw r) (rh r).
Definition set_topright (p : Z * Z) (r : Rect) : Rect :=
  MkRect (fst p - rw r) (snd p) (rw r) (rh r).
Definition set_bottomleft (p : Z * Z) (r : Rect) : Rect :=
  MkRect (fst p) (snd p - rh r) (rw r) (rh r).
Definition set_bottomright (p : Z * Z) (r : Rect) : Rect :=
  MkRect (fst p - rw r) (snd p - rh r) (rw r) (rh r).
Definition set_center (p : Z * Z) (r : Rect) : Rect :=
  MkRect (fst p - half (rw r)) (snd p - half (rh r)) (rw r) (rh r).
Definition set_left (v : Z) (r : Rect) : Rect := MkRect v (ry r) (rw r) (rh r).
Definition set_right (v : Z) (r : Rect) : Rect :=
  MkRect (v - rw r) (ry r) (rw r) (rh r).
Definition set_centery (v : Z) (r : Rect) : Rect :=
  MkRect (rx r) (v - half (rh r)) (rw r) (rh r).

(** Modelled from the spec: the surface abstraction of the host framework
    (section 6: allocate, fill, blit, bounding rectangle).  A surface is its
    dimensions, whether it carries a per-pixel alpha channel, and the
    drawing calls made on it since allocation, oldest first.  Allocation is
    total, as section 4.1 has it: no error for malformed geometry. *)
Inductive Surface : Type :=
| MkSurface (dims : Z * Z) (alpha : bool) (drawn : list DrawOp)
with DrawOp : Type :=
| Fill (c : Color)
| Blit (src : Surface) (dest : Rect)
| Glyphs (text : string) (antialias : bool) (c : Color).

Definition surf_size (s : Surface) : Z * Z :=
  match s with MkSurface d _ _ => d end.
Definition surf_alpha (s : Surface) : bool :=
  match s with MkSurface _ a _ => a end.
Definition surf_drawn (s : Surface) : list DrawOp :=
  match s with MkSurface _ _ l => l end.

(** [pygame.Surface(size)] *)
Definition new_Surface (dims : Z * Z) : Surface := MkSurface dims false [].
(** [.convert()]: display format, no per-pixel alpha. *)
Definition convert (s : Surface) : Surface :=
  MkSurface (surf_size s) false (surf_drawn s).
(** [.convert_alpha()]: display format with per-pixel alpha. *)
Definition convert_alpha (s : Surface) : Surface :=
  MkSurface (surf_size s) true (surf_drawn s).
(** [.fill(color)] *)
Definition fill (c : Color) (s : Surface) : Surface :=
  MkSurface (surf_size s) (surf_alpha s) (surf_drawn s ++ [Fill c]).
(** [.blit(source, dest)]: the pixels of [source] as they are now. *)
Definition blit (src : Surface) (dest : Rect) (s : Surface) : Surface :=
  MkSurface (surf_size s) (surf_alpha s) (surf_drawn s ++ [Blit src dest]).
(** [.get_rect()]: the surface's extent at the origin. *)
Definition get_rect (s : Surface) : Rect :=
  MkRect 0 0 (fst (surf_size s)) (snd (surf_size s)).

(** Modelled from the spec: the font abstraction of the host framework
    (section 6: load by family name or default, and size). *)
Record Font : Type := SysFont { font_family : option string; font_points : Z }.

(** ** The [Button] class *)

Record Button : Type := MkButton {
  id : nat;
  title : string;
  tag : string;
  size : Z * Z;
  pos : Z * Z;
  align_text : string;
  font_unselected : Color;
  font_selected : Color;
  font : Font;
  button_color : Color;
  button_color_sel : Color;
  highlight_button : bool;
  shadow_color : Color;
  offset : Z * Z;
  v_attr : string;
  surf : Surface;
  rect : Rect;
  hovered : bool;
  _clicked : option Z
}.

(** Attribute assignments made after construction. *)
Definition set_surf (s : Surface) (b : Button) : Button :=
  MkButton (id b) (title b) (tag b) (size b) (pos b) (align_text b)
    (font_unselected b) (font_selected b) (font b) (button_color b)
    (button_color_sel b) (highlight_button b) (shadow_color b) (offset b)
    (v_attr b) s (rect b) (hovered b) (_clicked b).

Definition set_rect (r : Rect) (b : Button) : Button :=
  MkButton (id b) (title b) (tag b) (size b) (pos b) (align_text b)
    (font_unselected b) (font_selected b) (font b) (button_color b)
    (button_color_sel b) (highlight_button b) (shadow_color b) (offset b)
    (v_attr b) (surf b) r (hovered b) (_clicked b).

Definition set_hovered (h : bool) (b : Button) : Button :=
  MkButton (id b) (title b) (tag b) (size b) (pos b) (align_text b)
    (font_unselected b) (font_selected b) (font b) (button_color b)
    (button_color_sel b) (highlight_button b) (shadow_color b) (offset b)
    (v_attr b) (surf b) (rect b) h (_clicked b).

Definition set_clicked (t : option Z) (b : Button) : Button :=
  MkButton (id b) (title b) (tag b) (size b) (pos b) (align_text b)
    (font_unselected b) (font_selected b) (font b) (button_color b)
    (button_color_sel b) (highlight_button b) (shadow_color b) (offset b)
    (v_attr b) (surf b) (rect b) (hovered b) t.

(** [0 not in offset] *)
Definition zero_not_in (o : Z * Z) : bool :=
  negb ((0 =? fst o) || (0 =? snd o)).

(** [getSurf]: set the base surface. *)
Definition getSurf (self : Button) : Button :=
  let sz := size self in
  let off := offset self in
  if zero_not_in off then
    let s := convert_alpha (new_Surface (fst sz + fst off, snd sz + snd off)) in
    set_surf (fill [0; 0; 0; 0] s) self
  else
    set_surf (convert (new_Surface sz)) self.

(** [getRect]: set the base rectangle from the selected virtual attribute. *)
Definition getRect (self : Button) : Button :=
  let p := pos self in
  let va := v_attr self in
  let r := get_rect (surf self) in
  if (va =? "center")%string then set_rect (set_center p r) self
  else if (va =? "topleft")%string then set_rect (set_topleft p r) self
  else if (va =? "topright")%string then set_rect (set_topright p r) self
  else if (va =? "bottomleft")%string then set_rect (set_bottomleft p r) self
  else if (va =? "bottomright")%string then set_rect (set_bottomright p r) self
  else set_rect r self.

(** [getColors(txt)]: title or button colour for the current hover state. *)
Definition getColors (txt : bool) (self : Button) : Color :=
  if hovered self then
    if txt then font_selected self else button_color_sel self
  else
    if txt then font_unselected self else button_color self.

(** [makeButton]: the face pair, followed by the shadow pair when the shadow
    is not disabled. *)
Definition makeButton (self : Button) : list (Surface * Rect) :=
  let sz := size self in
  let off := offset self in
  let button_surf := convert (new_Surface sz) in
  let button_surf :=
    if highlight_button self then fill (getColors false self) button_surf
    else fill (button_color self) button_surf in
  let button_rect := get_rect button_surf in
  let button := [(button_surf, button_rect)] in
  if zero_not_in off then
    let shadow_surf := convert (new_Surface sz) in
    let shadow_surf := fill (shadow_color self) shadow_surf in
    let shadow_rect := get_rect shadow_surf in
    let '(x, y) := topleft button_rect in
    let '(x, y) := (x + fst off, y + snd off) in
    let shadow_rect := set_topleft (x, y) shadow_rect in
    button ++ [(shadow_surf, shadow_rect)]
  else button.

(** [clicked]: the click-rate limiter.  [ticks] is the value
    [pygame.time.get_ticks()] returns during the call (each path reads the
    clock once).  [seconds] is a true division in the source; the quotient
    of an integer by 1000 rounds to a float above [0.5] exactly when the
    rational quotient is above one half, so the comparison is taken on [Q]. *)
Definition clicked (ticks : Z) (self : Button) : bool * Button :=
  if negb (py_truthy (_clicked self)) then
    (false, set_clicked (Some ticks) self)
  else
    match _clicked self with
    | Some t =>
        let seconds := (ticks - t) # 1000 in
        if py_gt seconds (1 # 2) then (true, set_clicked None self)
        else (true, self)
    | None => (true, self)
    end.

(** ** Construction *)

(** The class attribute [nextid = itertools.count().__next__] is state shared
    by all constructions of the process: the next value to hand out. *)
Definition Counter (A : Type) : Type := nat -> A * nat.

Definition ret {A : Type} (a : A) : Counter A := fun n => (a, n).

Definition bind {A B : Type} (m : Counter A) (k : A -> Counter B) : Counter B :=
  fun n => let (a, n') := m n in k a n'.

Notation "x <- m ;; k" := (bind m (fun x => k))
  (at level 61, m at next level, right associativity).

(** [Button.nextid()] *)
Definition nextid : Counter nat := fun n => (n, S n).

(** The keyword arguments of the constructor; [None] is an absent key. *)
Record Kwargs : Type := MkKwargs {
  kw_pos : option (Z * Z);
  kw_align_text : option string;
  kw_font_name : option string;
  kw_font_size : option Z;
  kw_unselected : option Color;
  kw_selected : option Color;
  kw_amount : option float;
  kw_button_color : option Color;
  kw_button_color_sel : option Color;
  kw_highlight_button : option bool;
  kw_shadow_color : option Color;
  kw_offset : option (Z * Z);
  kw_v_attr : option string
}.

Definition no_kwargs : Kwargs :=
  MkKwargs None None None None None None None None None None None None None.

(** [kwargs.get(key, default)] *)
Definition get {A : Type} (v : option A) (default : A) : A :=
  match v with
  | Some a => a
  | None => default
  end.

(** [min(255, int(c*amount))] for one channel [c]: the integer is converted
    to a float, the product is a float product, [int] truncates it.  [None]
    is the exception [int] raises for a product that is not finite. *)
Definition highlight (amount : float) (c : Z) : option Z :=
  option_map (Z.min 255) (py_int_float (float_mul (float_of_int c) amount)).

(** [tuple([min(255, int(c*amount)) for c in color])]: channel by channel
    from the left, raising at the first channel that raises. *)
Fixpoint highlight_all (amount : float) (color : Color) : option Color :=
  match color with
  | [] => Some []
  | c :: rest =>
      match highlight amount c with
      | Some c' =>
          match highlight_all amount rest with
          | Some rest' => Some (c' :: rest')
          | None => None
          end
      | None => None
      end
  end.

(** [int(((size[0]+size[1])/3))-len(title)], the default of [font_size];
    [None] when [int] raises. *)
Definition font_size_default (size0 : Z * Z) (title0 : string) : option Z :=
  option_map (fun q => q - Z.of_nat (py_len title0))
    (py_int_float (truediv (fst size0 + snd size0) 3)).

(** The value of an expression on a call in which it does not raise; the
    calls in which it does are told apart by [init_raises] below. *)
Definition value_of {A : Type} (r : option A) (otherwise : A) : A :=
  match r with
  | Some a => a
  | None => otherwise
  end.

(** The default of [amount]: the literal [1.5]. *)
Definition amount_default : float := truediv 3 2.

(** [Button.__init__(title='button', size=[60,20], **kwargs)]; an absent
    positional argument is [None].  The two defaults that go through
    [int] are computed whether or not the keyword is present, as the
    arguments of [kwargs.get] are; [__init__] is the constructor on the
    calls in which neither raises, and [new_Button] below is the call
    itself. *)
Definition __init__ (title_arg : option string) (size_arg : option (Z * Z))
    (kwargs : Kwargs) : Counter Button :=
  let title0 := get title_arg "button" in
  let size0 := get size_arg (60, 20) in
  i <- nextid ;;
  let title1 :=
    if (title0 =? "button")%string then title0 ++ " " ++ format_i i
    else title0 in
  let tag1 := title1 in
  let pos1 := get (kw_pos kwargs) (0, 0) in
  let align := get (kw_align_text kwargs) "center" in
  let font_name := kw_font_name kwargs in
  let font_size :=
    get (kw_font_size kwargs)
      (value_of (font_size_default size0 title0) 0) in
  let unselected := get (kw_unselected kwargs) [215; 255; 255] in
  let selected := get (kw_selected kwargs) [225; 255; 255] in
  let font1 := SysFont font_name font_size in
  let amount := get (kw_amount kwargs) amount_default in
  let bcolor := get (kw_button_color kwargs) [70; 130; 180] in
  let color := bcolor in
  let bcolor_sel :=
    get (kw_button_color_sel kwargs)
      (value_of (highlight_all amount color) []) in
  let hl := get (kw_highlight_button kwargs) false in
  let shadow := get (kw_shadow_color kwargs) [99; 184; 255] in
  let off := get (kw_offset kwargs) (3, 2) in
  let va := get (kw_v_attr kwargs) "topleft" in
  let self :=
    MkButton i title1 tag1 size0 pos1 align unselected selected font1 bcolor
      bcolor_sel hl shadow off va (new_Surface (0, 0)) (MkRect 0 0 0 0)
      false None in
  ret (getRect (getSurf self)).

(** Whether the call raises in one of the two defaults that go through
    [int]: the font size first, the hover colour after it. *)
Definition init_raises (title_arg : option string) (size_arg : option (Z * Z))
    (kwargs : Kwargs) : bool :=
  match font_size_default (get size_arg (60, 20)) (get title_arg "button") with
  | None => true
  | Some _ =>
      match highlight_all (get (kw_amount kwargs) amount_default)
              (get (kw_button_color kwargs) [70; 130; 180]) with
      | None => true
      | Some _ => false
      end
  end.

(** The call [Button(title, size, **kwargs)]: [None] when it raises.  The
    id is taken before anything can raise, so the counter moves on either
    way. *)
Definition new_Button (title_arg : option string) (size_arg : option (Z * Z))
    (kwargs : Kwargs) : Counter (option Button) :=
  b <- __init__ title_arg size_arg kwargs ;;
  ret (if init_raises title_arg size_arg kwargs then None else Some b).

(** The arguments of one constructor call. *)
Definition Call : Type := option string * option (Z * Z) * Kwargs.

(** A run of constructor calls, in order, on the shared counter. *)
Fixpoint construct_all (calls : list Call) : Counter (list Button) :=
  match calls with
  | [] => ret []
  | (t, s, k) :: rest =>
      b <- __init__ t s k ;;
      bs <- construct_all rest ;;
      ret (b :: bs)
  end.

(** ** Drawing *)

Section Drawing.

(** The extent of a rendered line of text is decided by the host's font
    engine. *)
Variable text_extent : Font -> string -> Z * Z.

(** [font.render(text, antialias, color)] *)
Definition render (f : Font) (text : string) (antialias : bool) (c : Color)
  : Surface :=
  MkSurface (text_extent f text) true [Glyphs text antialias c].

(** [rendTxt]: the title surface and its rectangle. *)
Definition rendTxt (self : Button) : Surface * Rect :=
  let title_surf := render (font self) (title self) true (getColors true self) in
  (title_surf, get_rect title_surf).

(** [draw(surface)]: the button after the call and the target surface
    after the call. *)
Definition draw (surface : Surface) (self : Button) : Button * Surface :=
  let align := align_text self in
  let button := makeButton self in
  let '(titleS, titleR) := rendTxt self in
  match button with
  | [] => (self, surface)
  | (face_surf, face_rect) :: others =>
      let titleR :=
        if (align =? "center")%string then set_center (center face_rect) titleR
        else if (align =? "left")%string then
          set_centery (centery face_rect) (set_left (left face_rect + 4) titleR)
        else if (align =? "right")%string then
          set_centery (centery face_rect) (set_right (right face_rect - 4) titleR)
        else titleR in
      let face_surf := blit titleS titleR face_surf in
      let own :=
        match others with
        | [(shadow_surf, shadow_rect)] => blit shadow_surf shadow_rect (surf self)
        | _ => surf self
        end in
      let own := blit face_surf face_rect own in
      let self := set_surf own self in
      (self, blit (surf self) (rect self) surface)
  end.

End Drawing.

(** ** Calls on a constructed button *)

(** What a caller does to a [Button] after construction: the methods that
    assign attributes, and the harness's assignment to [hovered]. *)
Inductive Op : Type :=
| OpDraw (text_extent : Font -> string -> Z * Z) (target : Surface)
| OpClicked (ticks : Z)
| OpGetSurf
| OpGetRect
| OpSetHovered (h : bool).

Definition step (o : Op) (b : Button) : Button :=
  match o with
  | OpDraw te target => fst (draw te target b)
  | OpClicked ticks => snd (clicked ticks b)
  | OpGetSurf => getSurf b
  | OpGetRect => getRect b
  | OpSetHovered h => set_hovered h b
  end.

Definition run (ops : list Op) (b : Button) : Button :=
  fold_left (fun acc o => step o acc) ops b.

(** Successive [clicked()] calls at the given clock readings: the results in
    order and the button afterwards. *)
Fixpoint clicks (readings : list Z) (b : Button) : list bool * Button :=
  match readings with
  | [] => ([], b)
  | t :: rest =>
      let (r, b') := clicked t b in
      let (rs, b'') := clicks rest b' in
      (r :: rs, b'')
  end.

(** ** Geometry tests of the host *)

(** Modelled from the spec: the point-containment test of the rectangle
    abstraction (section 6), with pygame's half-open extent: a point on the
    left or top edge is inside, one on the right or bottom edge is not. *)
Definition collidepoint (r : Rect) (p : Z * Z) : bool :=
  (rx r <=? fst p) && (fst p <? rx r + rw r) &&
  (ry r <=? snd p) && (snd p <? ry r + rh r).

(** [inner] lies within [outer]: nothing of it is clipped when it is blitted
    onto a surface whose extent is [outer]. *)
Definition within (outer inner : Rect) : Prop :=
  rx outer <= rx inner /\ rx inner + rw inner <= rx outer + rw outer /\
  ry outer <= ry inner /\ ry inner + rh inner <= ry outer + rh outer.

(** ** Repeated calls *)

(** The clock readings at which a run of [clicked()] calls was permitted. *)
Fixpoint accepted (readings : list Z) (b : Button) : list Z :=
  match readings with
  | [] => []
  | t :: rest =>
      let (r, b') := clicked t b in
      if r then accepted rest b' else t :: accepted rest b'
  end.

(** [n] successive [draw] calls on the same target. *)
Fixpoint draws (te : Font -> string -> Z * Z) (n : nat) (target : Surface)
    (b : Button) : Button * Surface :=
  match n with
  | O => (b, target)
  | S n' => let (b', target') := draw te target b in draws te n' target' b'
  end.

(** ** The demo's button loop *)

Section Harness.

(** [pygame.USEREVENT], whose value depends on the pygame release. *)
Variable USEREVENT : Z.

(** The [events] dictionary of [main]: keys 0, 1, 2. *)
Definition events (key : nat) : option Z :=
  match key with
  | 0%nat => Some (USEREVENT + 1)
  | 1%nat => Some (USEREVENT + 2)
  | 2%nat => Some (USEREVENT + 3)
  | _ => None
  end.

(** The state one pass of the loop body works on: the screen and the event
    queue, oldest event first. *)
Record Frame : Type := MkFrame { screen : Surface; queue : list Z }.

(** The body of [for button in buttons] at the end of the main loop, for
    one button.  [m_pos] is [pygame.mouse.get_pos()], [pressed] is
    [pygame.mouse.get_pressed()[0] == 1], [ticks] is the value the clock has
    if [clicked] is called.  [None] is the [KeyError] of [events[button.id]]
    for an id that is not a key. *)
Definition poll_button (te : Font -> string -> Z * Z) (m_pos : Z * Z)
    (pressed : bool) (ticks : Z) (fr : Frame) (button : Button)
  : option (Button * Frame) :=
  let after_click :=
    if collidepoint (rect button) m_pos then
      let clicked_step :=
        if pressed then
          let (disallowed, button) := clicked ticks button in
          if negb disallowed then
            match events (id button) with
            | Some e => Some (button, (queue fr ++ [e])%list)
            | None => None
            end
          else Some (button, queue fr)
        else Some (button, queue fr) in
      match clicked_step with
      | Some (button, q) => Some (set_hovered true button, q)
      | None => None
      end
    else Some (set_hovered false button, queue fr) in
  match after_click with
  | Some (button, q) =>
      let (button, scr) := draw te (screen fr) button in
      Some (button, MkFrame scr q)
  | None => None
  end.


(** Successive passes over one button with the mouse button held down:
    one pass per clock reading. *)
Fixpoint hold (te : Font -> string -> Z * Z) (m_pos : Z * Z)
    (readings : list Z) (fr : Frame) (button : Button)
  : option (Button * Frame) :=
  match readings with
  | [] => Some (button, fr)
  | ticks :: rest =>
      match poll_button te m_pos true ticks fr button with
      | Some (button', fr') => hold te m_pos rest fr' button'
      | None => None
      end
  end.

End Harness.

(** ** The demo's event handler *)

Section Events.

(** Event type and key constants of [pygame.locals]; their values depend on
    the pygame release. *)
Variables QUIT KEYDOWN MOUSEBUTTONDOWN K_ESCAPE USEREVENT : Z.

(** An event as the handler reads it: [evt.type], and [evt.key], which a
    key event carries. *)
Record Event : Type := MkEvent { evt_type : Z; evt_key : Z }.

(** The state the handler works on: the [done] flag and the lines printed
    so far, oldest first. *)
Record Loop : Type := MkLoop { done : bool; printed : list string }.

(** The [for button in buttons] of the [MOUSEBUTTONDOWN] branch:
    [button.rect.collidepoint(m_pos) & pygame.mouse.get_pressed()[0] == 1]
    groups as [(a & b) == 1]; [pressed] is [get_pressed()[0]]. *)
Fixpoint click_buttons (m_pos : Z * Z) (pressed : bool) (buttons : list Button)
    (d : bool) : bool :=
  match buttons with
  | [] => d
  | button :: rest =>
      let d :=
        if collidepoint (rect button) m_pos && pressed then
          if Nat.eqb (id button) 0 then true
          else if Nat.eqb (id button) 1 then d
          else if Nat.eqb (id button) 2 then d
          else d
        else d in
      click_buttons m_pos pressed rest d
  end.

(** The body of [for evt in pygame.event.get()] for one event. *)
Definition handle_event (m_pos : Z * Z) (pressed : bool)
    (buttons : list Button) (evt : Event) (st : Loop) : Loop :=
  if evt_type evt =? QUIT then MkLoop true (printed st)
  else if (evt_type evt =? KEYDOWN) && (evt_key evt =? K_ESCAPE) then
    MkLoop true (printed st)
  else if evt_type evt =? USEREVENT + 1 then
    MkLoop (done st) (printed st ++ ["The Quit button was clicked"])
  else if evt_type evt =? USEREVENT + 2 then
    MkLoop (done st) (printed st ++ ["The New button was clicked"])
  else if evt_type evt =? USEREVENT + 3 then
    MkLoop (done st) (printed st ++ ["The Reset button was clicked"])
  else if evt_type evt =? MOUSEBUTTONDOWN then
    MkLoop (click_buttons m_pos pressed buttons (done st)) (printed st)
  else st.

End Events.

(** ** Derived notions and sample inputs *)

(** The colour [makeButton] fills the face with. *)
Definition face_color (b : Button) : Color :=
  if highlight_button b then getColors false b else button_color b.

(** The title rectangle [draw] ends with, for an alignment, the face
    rectangle and the rectangle of the rendered title. *)
Definition align_title (align : string) (face_rect titleR : Rect) : Rect :=
  if (align =? "center")%string then set_center (center face_rect) titleR
  else if (align =? "left")%string then
    set_centery (centery face_rect) (set_left (left face_rect + 4) titleR)
  else if (align =? "right")%string then
    set_centery (centery face_rect) (set_right (right face_rect - 4) titleR)
  else titleR.

(** The face as [draw] blits it: filled, then the title on top. *)
Definition titled_face (te : Font -> string -> Z * Z) (b : Button) : Surface :=
  let face := fill (face_color b) (convert (new_Surface (size b))) in
  let titleS := fst (rendTxt te b) in
  blit titleS (align_title (align_text b) (get_rect face) (get_rect titleS)) face.

(** The shadow as [draw] blits it. *)
Definition shadow_face (b : Button) : Surface :=
  fill (shadow_color b) (convert (new_Surface (size b))).

(** The drawing calls one [draw] adds to the backing surface. *)
Definition layers (te : Font -> string -> Z * Z) (b : Button) : list DrawOp :=
  (if zero_not_in (offset b)
   then [Blit (shadow_face b)
           (MkRect (fst (offset b)) (snd (offset b)) (fst (size b)) (snd (size b)))]
   else [])
  ++ [Blit (titled_face te b) (MkRect 0 0 (fst (size b)) (snd (size b)))].

(** [int(n/3)] is [n // 3], as a test on one integer [n]. *)
Definition third_is_floor (n : Z) : bool :=
  match py_int_float (truediv n 3) with
  | Some q => q =? n / 3
  | None => false
  end.

(** The same test on the [count] integers from [n] on. *)
Fixpoint thirds_are_floors (count : nat) (n : Z) : bool :=
  match count with
  | O => true
  | S count' => third_is_floor n && thirds_are_floors count' (n + 1)
  end.

(** The title of three characters [e-acute e-acute e-acute], six bytes. *)
Definition e_acute_title : string :=
  let e_acute s := String (ascii_of_nat 195) (String (ascii_of_nat 169) s) in
  e_acute (e_acute (e_acute EmptyString)).


(** The anchor names [getRect] places by. *)
Definition anchors : list string :=
  ["center"; "topleft"; "topright"; "bottomleft"; "bottomright"].

(** A button built with every argument left out, the first of its process. *)
Definition default_button : Button := fst (__init__ None None no_kwargs 0%nat).

(** Keyword arguments with a single group of keys present. *)
Definition kw_offset_only (o : Z * Z) : Kwargs :=
  MkKwargs None None None None None None None None None None None (Some o) None.

Definition kw_color_amount (c : Color) (m : float) : Kwargs :=
  MkKwargs None None None None None None (Some m) (Some c) None None None None
    None.

Definition kw_pos_only (p : Z * Z) : Kwargs :=
  MkKwargs (Some p) None None None None None None None None None None None None.

Definition kw_pos_anchor (p : Z * Z) (a : string) : Kwargs :=
  MkKwargs (Some p) None None None None None None None None None None None
    (Some a).

(** Three constructor calls with the titles and size of the demo. *)
Definition demo_calls : list Call :=
  [(Some "Quit", Some (85, 35), no_kwargs);
   (Some "New", Some (85, 35), no_kwargs);
   (Some "Reset", Some (85, 35), no_kwargs)].

(** Two permitted calls lie more than 500ms apart. *)
Definition gap (a c : Z) : Prop := 500 < c - a.

(** The invariant behind the spacing of permitted calls: [p] is the reading
    of the last permitted call; the timer either still holds it, or has
    been cleared by a call made more than 500ms after it. *)
Definition after_permit (p : Z) (readings : list Z) (b : Button) : Prop :=
  (_clicked b = Some p /\ p <> 0 /\ Forall (fun t => p <= t) readings) \/
  (_clicked b = None /\ Forall (gap p) readings).

(** A mouse button held for 1.3s, polled about every 100ms from clock 10. *)
Definition held_readings : list Z :=
  [10; 110; 210; 310; 410; 510; 511; 610; 710; 810; 910; 1010; 1110; 1112;
   1210; 1310].

(** Case analysis on every conditional of the goal. *)
Ltac split_ifs :=
  repeat match goal with
         | |- context [if ?c then _ else _] => destruct c
         end.

(** * Properties *)

(** ** The click-rate limiter *)

Lemma py_gt_half_second (d : Z) : py_gt (d # 1000) (1 # 2) = true <-> 500 < d.
Proof.
  unfold py_gt, Qle_bool; simpl.
  destruct (Z.leb_spec (d * 2) 1000); simpl; split; intros; try lia; discriminate.
Qed.

Lemma py_truthy_Some (t : Z) : py_truthy (Some t) = true <-> t <> 0.
Proof.
  simpl. destruct (Z.eqb_spec t 0); simpl; split; intros; try lia; discriminate.
Qed.

(** With no timer, or with the timestamp 0, the call takes the first branch. *)
Lemma clicked_unarmed (ticks : Z) (b : Button) :
  py_truthy (_clicked b) = false ->
  clicked ticks b = (false, set_clicked (Some ticks) b).
Proof. intros H. unfold clicked. rewrite H. reflexivity. Qed.

Lemma clicked_expired (ticks t : Z) (b : Button) :
  _clicked b = Some t -> t <> 0 -> 500 < ticks - t ->
  clicked ticks b = (true, set_clicked None b).
Proof.
  intros Ht Hnz Hd. unfold clicked. rewrite Ht.
  apply py_truthy_Some in Hnz. rewrite Hnz. simpl negb. cbv iota.
  apply py_gt_half_second in Hd. cbv zeta. rewrite Hd. reflexivity.
Qed.

Lemma clicked_waiting (ticks t : Z) (b : Button) :
  _clicked b = Some t -> t <> 0 -> ticks - t <= 500 ->
  clicked ticks b = (true, b).
Proof.
  intros Ht Hnz Hd. unfold clicked. rewrite Ht.
  apply py_truthy_Some in Hnz. rewrite Hnz. simpl negb. cbv iota. cbv zeta.
  destruct (py_gt ((ticks - t) # 1000) (1 # 2)) eqn:E; [|reflexivity].
  apply py_gt_half_second in E. lia.
Qed.

Lemma clicked_set_clicked (v : option Z) (b : Button) :
  _clicked (set_clicked v b) = v.
Proof. reflexivity. Qed.

Lemma set_clicked_twice (u v : option Z) (b : Button) :
  set_clicked u (set_clicked v b) = set_clicked u b.
Proof. reflexivity. Qed.

(** On a clock that does not read 0 at the first call, the four calls of the
    debounce scenario (two at [t], two 600ms later) give permitted,
    disallowed, disallowed, permitted. *)
Lemma clicks_scenario_nonzero (t : Z) (b : Button) :
  t <> 0 ->
  fst (clicks [t; t; t + 600; t + 600] (set_clicked None b))
  = [false; true; true; false].
Proof.
  intros Hnz. cbn [clicks].
  rewrite (clicked_unarmed t) by reflexivity. rewrite set_clicked_twice.
  rewrite (clicked_waiting t t) by (try reflexivity; try assumption; lia).
  rewrite (clicked_expired (t + 600) t) by (try reflexivity; try assumption; lia).
  rewrite set_clicked_twice.
  rewrite (clicked_unarmed (t + 600)) by reflexivity.
  reflexivity.
Qed.

(** C1: the four-call scenario on a button whose timer starts clear, run on
    a clock that reads 0 at the first call (calls at 0, 0, 600, 600): the
    code answers permitted, permitted, permitted, disallowed, where the
    specification has permitted, disallowed, disallowed, permitted. *)
Theorem clicks_scenario_clock_zero (b : Button) :
  fst (clicks [0; 0; 600; 600] (set_clicked None b))
  = [false; false; false; true].
Proof. reflexivity. Qed.

(** C2, counterexample: a timer set at 1000 and a call at 1500, exactly
    500ms later: the call is disallowed and the timer still holds 1000. *)
Lemma timer_kept_at_500ms :
  let b := set_clicked (Some 1000) default_button in
  1500 - 1000 = 500 /\
  fst (clicked 1500 b) = true /\
  _clicked (snd (clicked 1500 b)) = Some 1000.
Proof. repeat split. Qed.

(** C2, amended: when the timer holds a nonzero timestamp [t], a call made
    more than 500ms after [t] clears the timer and is disallowed; a call
    made at most 500ms after [t] is disallowed and leaves the button, timer
    included, as it was. *)
Theorem clicked_armed (ticks t : Z) (b : Button) :
  _clicked b = Some t -> t <> 0 ->
  (500 < ticks - t -> clicked ticks b = (true, set_clicked None b)) /\
  (ticks - t <= 500 -> clicked ticks b = (true, b)).
Proof.
  intros Ht Hnz. split; intros Hd.
  - now apply (clicked_expired ticks t).
  - now apply (clicked_waiting ticks t).
Qed.

Lemma clicked_armed_witness :
  let b := set_clicked (Some 1000) default_button in
  clicked 1501 b = (true, set_clicked None b) /\ clicked 1500 b = (true, b).
Proof.
  intros b.
  assert (H0 : _clicked b = Some 1000) by reflexivity.
  assert (H1 : 1000 <> 0) by lia.
  split.
  - apply (proj1 (clicked_armed 1501 1000 b H0 H1)). lia.
  - apply (proj2 (clicked_armed 1500 1000 b H0 H1)). lia.
Defined.

(** C10: a first call made while the clock reads 0 is permitted and stores
    the timestamp 0; the presence check takes 0 for an absent timer, so the
    next call, whenever it comes, is permitted too.  Hence there is a clock
    reading at which two consecutive calls are both permitted. *)
Theorem clicked_clock_zero (b : Button) (ticks : Z) :
  let b0 := set_clicked None b in
  let b1 := snd (clicked 0 b0) in
  fst (clicked 0 b0) = false /\
  _clicked b1 = Some 0 /\
  py_truthy (_clicked b1) = false /\
  fst (clicked ticks b1) = false /\
  exists t, fst (clicks [t; t] b0) = [false; false].
Proof.
  intros b0 b1.
  split; [reflexivity|]. split; [reflexivity|]. split; [reflexivity|].
  split; [reflexivity|]. exists 0. reflexivity.
Qed.

(** ** Backing surface *)

Lemma zero_not_in_true (o : Z * Z) :
  zero_not_in o = true <-> fst o <> 0 /\ snd o <> 0.
Proof.
  unfold zero_not_in.
  destruct (Z.eqb_spec 0 (fst o)), (Z.eqb_spec 0 (snd o)); simpl;
    split; intros; try discriminate; try lia; reflexivity.
Qed.

Lemma zero_not_in_false (o : Z * Z) :
  zero_not_in o = false <-> fst o = 0 \/ snd o = 0.
Proof.
  unfold zero_not_in.
  destruct (Z.eqb_spec 0 (fst o)), (Z.eqb_spec 0 (snd o)); simpl;
    split; intros; try discriminate; try lia; reflexivity.
Qed.

(** [getRect] assigns [rect] and nothing else. *)
Lemma getRect_frame (b : Button) : getRect b = set_rect (rect (getRect b)) b.
Proof. unfold getRect. cbv zeta. split_ifs; reflexivity. Qed.

(** [getSurf] assigns [surf] and nothing else. *)
Lemma getSurf_frame (b : Button) : getSurf b = set_surf (surf (getSurf b)) b.
Proof. unfold getSurf. cbv zeta. split_ifs; reflexivity. Qed.

Lemma getSurf_shadow (b : Button) :
  fst (offset b) <> 0 -> snd (offset b) <> 0 ->
  surf (getSurf b)
  = MkSurface (fst (size b) + fst (offset b), snd (size b) + snd (offset b))
      true [Fill [0; 0; 0; 0]].
Proof.
  intros Hx Hy. unfold getSurf. cbv zeta.
  rewrite (proj2 (zero_not_in_true (offset b)) (conj Hx Hy)). reflexivity.
Qed.

Lemma getSurf_plain (b : Button) :
  fst (offset b) = 0 \/ snd (offset b) = 0 ->
  surf (getSurf b) = MkSurface (size b) false [].
Proof.
  intros H. unfold getSurf. cbv zeta.
  rewrite (proj2 (zero_not_in_false (offset b)) H). reflexivity.
Qed.

(** The constructor ends with [getSurf] then [getRect], on the attributes it
    assigned before. *)
Lemma init_surf t s k n :
  let b := fst (__init__ t s k n) in
  surf b = surf (getSurf b) /\
  size b = get s (60, 20) /\
  offset b = get (kw_offset k) (3, 2).
Proof.
  cbv zeta. unfold __init__, bind, nextid, ret. cbv beta iota zeta.
  set (b0 := MkButton _ _ _ _ _ _ _ _ _ _ _ _ _ _ _ _ _ _ _).
  cbn [fst].
  rewrite (getRect_frame (getSurf b0)). rewrite (getSurf_frame b0).
  unfold getSurf. cbv zeta. cbn [surf size offset set_surf set_rect b0].
  split_ifs; repeat split.
Qed.

(** C3: for every constructed Button with size (w, h) and shadow offset
    (dx, dy): if neither dx nor dy is zero, the backing surface is
    (w+dx, h+dy), carries an alpha channel and has been cleared to
    (0,0,0,0); if either is zero it is exactly (w, h), without alpha
    channel and untouched. *)
Theorem backing_surface (t : option string) (s : option (Z * Z)) (k : Kwargs)
    (n : nat) :
  let b := fst (__init__ t s k n) in
  let w := fst (size b) in
  let h := snd (size b) in
  let dx := fst (offset b) in
  let dy := snd (offset b) in
  (dx <> 0 /\ dy <> 0 ->
     surf b = MkSurface (w + dx, h + dy) true [Fill [0; 0; 0; 0]]) /\
  (dx = 0 \/ dy = 0 -> surf b = MkSurface (w, h) false []).
Proof.
  intros b w h dx dy.
  destruct (init_surf t s k n) as [Hs _]. fold b in Hs.
  split.
  - intros [Hx Hy]. rewrite Hs. now apply getSurf_shadow.
  - intros Hz. rewrite Hs. rewrite (getSurf_plain b Hz).
    unfold w, h. now destruct (size b).
Qed.

Lemma backing_surface_witness :
  surf (fst (__init__ (Some "Quit") (Some (85, 35)) no_kwargs 0%nat))
  = MkSurface (88, 37) true [Fill [0; 0; 0; 0]] /\
  surf (fst (__init__ (Some "Quit") (Some (85, 35)) (kw_offset_only (0, 2)) 0%nat))
  = MkSurface (85, 35) false [].
Proof.
  split.
  - apply (proj1 (backing_surface (Some "Quit") (Some (85, 35)) no_kwargs 0%nat)).
    split; discriminate.
  - apply (proj2 (backing_surface (Some "Quit") (Some (85, 35))
                    (kw_offset_only (0, 2)) 0%nat)).
    left. reflexivity.
Defined.

(** ** Title and tag *)

Lemma init_title t s k n :
  let b := fst (__init__ t s k n) in
  id b = n /\
  tag b = title b /\
  title b = (if (get t "button" =? "button")%string
             then get t "button" ++ " " ++ format_i n
             else get t "button")%string.
Proof.
  cbv zeta. unfold __init__, bind, nextid, ret. cbv beta iota zeta.
  set (b0 := MkButton _ _ _ _ _ _ _ _ _ _ _ _ _ _ _ _ _ _ _).
  simpl fst.
  rewrite (getRect_frame (getSurf b0)). rewrite (getSurf_frame b0).
  repeat split.
Qed.

(** C4, counterexample: the caller supplies the title "button" and the
    button is titled "button 7", not "button". *)
Lemma title_sentinel_supplied :
  let b := fst (__init__ (Some "button") None no_kwargs 7%nat) in
  title b = "button 7" /\ title b <> "button".
Proof. split; [reflexivity | discriminate]. Qed.

(** C4, amended: when no title is supplied, or the supplied title is the
    string "button" itself, the title is "button " followed by the decimal
    id; when a title other than "button" is supplied, the title is that
    string verbatim; in all cases tag equals title. *)
Theorem title_and_tag (t : option string) (s : option (Z * Z)) (k : Kwargs)
    (n : nat) :
  let b := fst (__init__ t s k n) in
  (t = None \/ t = Some "button" ->
     title b = ("button " ++ format_i (id b))%string) /\
  (forall supplied, t = Some supplied -> supplied <> "button" ->
     title b = supplied) /\
  tag b = title b.
Proof.
  intros b. destruct (init_title t s k n) as (Hid & Htag & Htitle).
  fold b in Hid, Htag, Htitle.
  split; [|split].
  - intros [-> | ->]; rewrite Htitle, Hid; reflexivity.
  - intros supplied -> Hne. rewrite Htitle. simpl get.
    destruct (String.eqb_spec supplied "button"); [contradiction | reflexivity].
  - exact Htag.
Qed.

Lemma title_and_tag_witness :
  title (fst (__init__ None None no_kwargs 3%nat)) = "button 3" /\
  title (fst (__init__ (Some "Quit") None no_kwargs 3%nat)) = "Quit".
Proof.
  split.
  - apply (proj1 (title_and_tag None None no_kwargs 3%nat)). left. reflexivity.
  - apply (proj1 (proj2 (title_and_tag (Some "Quit") None no_kwargs 3%nat)) "Quit").
    + reflexivity.
    + discriminate.
Defined.

(** ** Hover colour *)

(** On a product that is not negative, [int] is the floor. *)
Lemma py_int_floor (x : Q) : (0 <= x)%Q -> py_int x = Qfloor x.
Proof.
  destruct x as [p d]. unfold Qle, py_int, Qfloor. simpl. intros H.
  apply Z.quot_div_nonneg; lia.
Qed.

(** [int] rounds toward zero whatever the sign. *)
Lemma py_int_toward_zero (x : Q) :
  Z.abs (py_int x) = Qfloor (Qabs x).
Proof.
  destruct x as [p d]. unfold py_int, Qfloor, Qabs. simpl.
  rewrite <- (Z.quot_div_nonneg (Z.abs p) (Z.pos d)) by lia.
  rewrite <- (Z.abs_eq (Z.pos d)) at 2 by lia.
  symmetry. apply Z.quot_abs. lia.
Qed.

Lemma init_hover t s k n :
  let b := fst (__init__ t s k n) in
  button_color b = get (kw_button_color k) [70; 130; 180] /\
  button_color_sel b
  = get (kw_button_color_sel k)
      (value_of (highlight_all (get (kw_amount k) amount_default) (button_color b))
         []).
Proof.
  cbv zeta. unfold __init__, bind, nextid, ret. cbv beta iota zeta.
  set (b0 := MkButton _ _ _ _ _ _ _ _ _ _ _ _ _ _ _ _ _ _ _).
  cbn [fst].
  rewrite (getRect_frame (getSurf b0)). rewrite (getSurf_frame b0).
  split; reflexivity.
Qed.

(** A call that returns a Button returns the one [__init__] builds, and
    raised in neither default. *)
Lemma new_Button_returns t s k n (b : Button) :
  fst (new_Button t s k n) = Some b ->
  b = fst (__init__ t s k n) /\
  (exists q, font_size_default (get s (60, 20)) (get t "button") = Some q) /\
  (exists sel,
      highlight_all (get (kw_amount k) amount_default)
        (get (kw_button_color k) [70; 130; 180]) = Some sel).
Proof.
  unfold new_Button, bind, ret, init_raises.
  destruct (__init__ t s k n) as [b0 n0]. cbn [fst].
  destruct (font_size_default _ _) as [q|]; [|discriminate].
  destruct (highlight_all _ _) as [sel|]; [|discriminate].
  intros H. injection H as <-. eauto.
Qed.

Lemma highlight_all_channels (amount : float) (color sel : Color) :
  highlight_all amount color = Some sel ->
  Forall2 (fun c c' => highlight amount c = Some c') color sel.
Proof.
  revert sel. induction color as [|c rest IH]; intros sel H.
  - injection H as <-. constructor.
  - cbn [highlight_all] in H.
    destruct (highlight amount c) as [c'|] eqn:Hc; [|discriminate H].
    destruct (highlight_all amount rest) as [rest'|]; [|discriminate H].
    injection H as <-. constructor; [exact Hc | now apply IH].
Qed.

Lemma highlight_product (amount : float) (c c' : Z) :
  highlight amount c = Some c' ->
  exists x, float_value (float_mul (float_of_int c) amount) = Some x /\
            c' = Z.min 255 (py_int x).
Proof.
  unfold highlight, py_int_float. intros H.
  destruct (float_value (float_mul (float_of_int c) amount)) as [x|];
    [|discriminate H].
  injection H as <-. now exists x.
Qed.

(** The hover colour of a call that returns without an explicit one. *)
Lemma hover_channels t s k n (b : Button) :
  fst (new_Button t s k n) = Some b ->
  kw_button_color_sel k = None ->
  Forall2 (fun c c' => highlight (get (kw_amount k) amount_default) c = Some c')
    (button_color b) (button_color_sel b).
Proof.
  intros Hb Hsel. destruct (new_Button_returns t s k n b Hb) as (-> & _ & sel & Hall).
  destruct (init_hover t s k n) as [Hc Hh]. rewrite Hh, Hsel, Hc, Hall.
  cbn [get value_of]. now apply highlight_all_channels.
Qed.

(** C5, counterexample: base colour (3,3,3) and multiplier -0.5.  Each
    product is -1.5, exactly; the derived channel is -1, while
    min(255, floor(-1.5)) is -2. *)
Lemma hover_color_negative_product :
  let m := truediv (-1) 2 in
  let kw := kw_color_amount [3; 3; 3] m in
  exists b,
    fst (new_Button None None kw 0%nat) = Some b /\
    button_color_sel b = [-1; -1; -1] /\
    map (fun c => option_map (fun x => Z.min 255 (Qfloor x))
                    (float_value (float_mul (float_of_int c) m)))
      (button_color b)
    = [Some (-2); Some (-2); Some (-2)].
Proof.
  eexists. split; [vm_compute; reflexivity|]. split; vm_compute; reflexivity.
Qed.

(** C5, amended: for every Button constructed without an explicit hover
    button colour, with base channels c and multiplier m, each channel of
    the derived hover colour is min(255, int(c*m)), where c*m is the
    double-precision product the code computes and int rounds toward zero;
    for every channel whose product is not negative that is
    min(255, floor(c*m)) of the same product; base (70,130,180) with
    m = 1.5 gives (105,195,255), and with m = .7 gives (49,91,125). *)
Theorem hover_color_default (t : option string) (s : option (Z * Z))
    (k : Kwargs) (n : nat) (b : Button) :
  fst (new_Button t s k n) = Some b ->
  kw_button_color_sel k = None ->
  let m := get (kw_amount k) amount_default in
  Forall2
    (fun c c' =>
       exists x,
         float_value (float_mul (float_of_int c) m) = Some x /\
         c' = Z.min 255 (py_int x) /\
         Z.abs (py_int x) = Qfloor (Qabs x) /\
         ((0 <= x)%Q -> c' = Z.min 255 (Qfloor x)))
    (button_color b) (button_color_sel b) /\
  option_map button_color_sel (fst (new_Button None None no_kwargs 0%nat))
  = Some [105; 195; 255] /\
  option_map button_color_sel
    (fst (new_Button None None
            (kw_color_amount [70; 130; 180] (truediv 7 10)) 0%nat))
  = Some [49; 91; 125].
Proof.
  intros Hb Hsel m. split; [|split; vm_compute; reflexivity].
  pose proof (hover_channels t s k n b Hb Hsel) as H. fold m in H.
  induction H as [|c c' cs cs' Hc _ IH]; constructor; [|exact IH].
  destruct (highlight_product m c c' Hc) as (x & Hx & ->).
  exists x. split; [exact Hx|]. split; [reflexivity|].
  split; [apply py_int_toward_zero|].
  intros H0. now rewrite py_int_floor.
Qed.

Lemma hover_color_default_witness :
  exists b,
    fst (new_Button None None (kw_color_amount [70; 130; 180] (truediv 7 10))
           0%nat) = Some b /\
    Forall2
      (fun c c' =>
         exists x,
           float_value (float_mul (float_of_int c) (truediv 7 10)) = Some x /\
           c' = Z.min 255 (py_int x) /\
           Z.abs (py_int x) = Qfloor (Qabs x) /\
           ((0 <= x)%Q -> c' = Z.min 255 (Qfloor x)))
      [70; 130; 180] [49; 91; 125].
Proof.
  assert (H : fst (new_Button None None
                     (kw_color_amount [70; 130; 180] (truediv 7 10)) 0%nat)
              = Some (fst (__init__ None None
                             (kw_color_amount [70; 130; 180] (truediv 7 10))
                             0%nat)))
    by (vm_compute; reflexivity).
  eexists. split; [exact H|].
  pose proof (proj1 (hover_color_default None None
                       (kw_color_amount [70; 130; 180] (truediv 7 10)) 0%nat _
                       H eq_refl)) as HF.
  assert (Hsel : button_color_sel
                   (fst (__init__ None None
                           (kw_color_amount [70; 130; 180] (truediv 7 10)) 0%nat))
                 = [49; 91; 125]) by (vm_compute; reflexivity).
  rewrite Hsel in HF. exact HF.
Defined.

(** ** Face and shadow *)

Lemma makeButton_shape (b : Button) :
  let face := fill (face_color b) (convert (new_Surface (size b))) in
  let shadow := fill (shadow_color b) (convert (new_Surface (size b))) in
  makeButton b
  = if zero_not_in (offset b)
    then [(face, get_rect face);
          (shadow,
           set_topleft (0 + fst (offset b), 0 + snd (offset b)) (get_rect shadow))]
    else [(face, get_rect face)].
Proof.
  unfold makeButton, face_color. cbv zeta.
  destruct (highlight_button b), (zero_not_in (offset b)); reflexivity.
Qed.

(** C7: the first pair [makeButton] returns holds the face: a surface of
    exactly [size], filled with the hover button colour when
    [highlight_button] is set and the button is hovered, and with the base
    button colour in every other case. *)
Theorem makeButton_face (b : Button) :
  exists face face_rect,
    nth_error (makeButton b) 0 = Some (face, face_rect) /\
    surf_size face = size b /\
    (highlight_button b = true /\ hovered b = true ->
       surf_drawn face = [Fill (button_color_sel b)]) /\
    (~ (highlight_button b = true /\ hovered b = true) ->
       surf_drawn face = [Fill (button_color b)]).
Proof.
  pose proof (makeButton_shape b) as H. cbv zeta in H.
  set (face := fill (face_color b) (convert (new_Surface (size b)))) in *.
  exists face, (get_rect face).
  split; [|split; [|split]].
  - rewrite H. now destruct (zero_not_in (offset b)).
  - reflexivity.
  - intros [Hh Hv]. unfold face, face_color, getColors. now rewrite Hh, Hv.
  - intros Hn. unfold face, face_color, getColors.
    destruct (highlight_button b), (hovered b); try reflexivity.
    exfalso. apply Hn. split; reflexivity.
Qed.

Lemma makeButton_face_witness :
  exists face face_rect,
    nth_error (makeButton (set_hovered true default_button)) 0
    = Some (face, face_rect) /\
    surf_size face = (60, 20) /\
    surf_drawn face = [Fill [70; 130; 180]].
Proof.
  destruct (makeButton_face (set_hovered true default_button))
    as (face & face_rect & H0 & Hs & _ & Hb).
  exists face, face_rect. split; [exact H0|]. split; [exact Hs|].
  apply Hb. intros [Hh _]. discriminate Hh.
Defined.

(** C8: [makeButton] returns a second pair exactly when neither offset
    component is zero; that pair holds a surface of [size] filled with the
    shadow colour, and a rectangle whose top-left is the face rectangle's
    top-left moved by the offset. *)
Theorem makeButton_shadow (b : Button) :
  (nth_error (makeButton b) 1 <> None <->
     fst (offset b) <> 0 /\ snd (offset b) <> 0) /\
  (List.length (makeButton b) = if zero_not_in (offset b) then 2%nat else 1%nat) /\
  (forall shadow shadow_rect,
     nth_error (makeButton b) 1 = Some (shadow, shadow_rect) ->
     exists face face_rect,
       nth_error (makeButton b) 0 = Some (face, face_rect) /\
       surf_size shadow = size b /\
       surf_drawn shadow = [Fill (shadow_color b)] /\
       topleft shadow_rect
       = (fst (topleft face_rect) + fst (offset b),
          snd (topleft face_rect) + snd (offset b))).
Proof.
  pose proof (makeButton_shape b) as H. cbv zeta in H.
  set (face := fill (face_color b) (convert (new_Surface (size b)))) in *.
  set (shadow := fill (shadow_color b) (convert (new_Surface (size b)))) in *.
  rewrite H. clear H.
  destruct (zero_not_in (offset b)) eqn:E.
  - apply zero_not_in_true in E. split; [|split].
    + split; [intros _; exact E | intros _; discriminate].
    + reflexivity.
    + intros sh sr Hsh. simpl in Hsh. injection Hsh as <- <-.
      exists face, (get_rect face). repeat split.
  - apply zero_not_in_false in E. split; [|split].
    + split; [intros Hn; now contradiction Hn | intros [Hx Hy]; lia].
    + reflexivity.
    + intros sh sr Hsh. discriminate Hsh.
Qed.

Lemma makeButton_shadow_witness :
  exists face face_rect,
    nth_error (makeButton default_button) 0 = Some (face, face_rect) /\
    topleft face_rect = (0, 0) /\
    nth_error (makeButton default_button) 1
    = Some (MkSurface (60, 20) false [Fill [99; 184; 255]], MkRect 3 2 60 20).
Proof.
  destruct (proj2 (proj2 (makeButton_shadow default_button))
              (MkSurface (60, 20) false [Fill [99; 184; 255]])
              (MkRect 3 2 60 20) eq_refl)
    as (face & face_rect & H0 & _ & _ & Htl).
  exists face, face_rect. split; [exact H0|]. split; [|reflexivity].
  simpl in H0. injection H0 as <- <-. reflexivity.
Defined.

(** ** Bounding rectangle *)

Lemma pair_eta (p : Z * Z) (a b : Z) : a = fst p -> b = snd p -> (a, b) = p.
Proof. destruct p. simpl. now intros -> ->. Qed.

(** C9: [getRect] takes the extent of the backing surface and, for the
    anchors center, topleft, topright, bottomleft and bottomright, moves
    the rectangle so that this anchor point is the configured position; for
    any other anchor string the rectangle stays at the origin with that
    extent.  The function is total: no anchor raises an error. *)
Theorem getRect_anchor (b : Button) :
  let r := rect (getRect b) in
  let w := fst (surf_size (surf b)) in
  let h := snd (surf_size (surf b)) in
  (rw r = w /\ rh r = h) /\
  (v_attr b = "center" -> center r = pos b) /\
  (v_attr b = "topleft" -> topleft r = pos b) /\
  (v_attr b = "topright" -> topright r = pos b) /\
  (v_attr b = "bottomleft" -> bottomleft r = pos b) /\
  (v_attr b = "bottomright" -> bottomright r = pos b) /\
  (~ In (v_attr b) anchors -> r = MkRect 0 0 w h).
Proof.
  cbv zeta. unfold getRect. cbv zeta.
  split; [|repeat split].
  - split_ifs; split; reflexivity.
  - intros ->. simpl. unfold center. simpl. apply pair_eta; simpl; lia.
  - intros ->. simpl. unfold topleft. simpl. apply pair_eta; simpl; lia.
  - intros ->. simpl. unfold topright. simpl. apply pair_eta; simpl; lia.
  - intros ->. simpl. unfold bottomleft. simpl. apply pair_eta; simpl; lia.
  - intros ->. simpl. unfold bottomright. simpl. apply pair_eta; simpl; lia.
  - intros Hn.
    assert (Hin : forall a, In a anchors -> v_attr b <> a)
      by (intros a Ha Heq; apply Hn; now rewrite Heq).
    destruct (String.eqb_spec (v_attr b) "center") as [e|_];
      [exfalso; revert e; apply Hin; simpl; auto 10|].
    destruct (String.eqb_spec (v_attr b) "topleft") as [e|_];
      [exfalso; revert e; apply Hin; simpl; auto 10|].
    destruct (String.eqb_spec (v_attr b) "topright") as [e|_];
      [exfalso; revert e; apply Hin; simpl; auto 10|].
    destruct (String.eqb_spec (v_attr b) "bottomleft") as [e|_];
      [exfalso; revert e; apply Hin; simpl; auto 10|].
    destruct (String.eqb_spec (v_attr b) "bottomright") as [e|_];
      [exfalso; revert e; apply Hin; simpl; auto 10|].
    reflexivity.
Qed.

Lemma getRect_anchor_witness :
  center (rect (getRect (fst (__init__ None None (kw_pos_anchor (30, 30) "center") 0%nat))))
  = (30, 30) /\
  rect (getRect (fst (__init__ None None (kw_pos_anchor (30, 30) "middle") 0%nat)))
  = MkRect 0 0 63 22.
Proof.
  split.
  - apply (proj1 (proj2 (getRect_anchor
             (fst (__init__ None None (kw_pos_anchor (30, 30) "center") 0%nat))))).
    reflexivity.
  - apply (proj2 (proj2 (proj2 (proj2 (proj2 (proj2 (getRect_anchor
             (fst (__init__ None None (kw_pos_anchor (30, 30) "middle") 0%nat))))))))).
    unfold anchors. simpl. intros H.
    repeat (destruct H as [H | H]; [discriminate H|]). exact H.
Defined.

(** ** Identifiers *)

Lemma clicked_id (ticks : Z) (b : Button) : id (snd (clicked ticks b)) = id b.
Proof.
  unfold clicked.
  destruct (py_truthy (_clicked b)); simpl; [|reflexivity].
  destruct (_clicked b); [|reflexivity].
  cbv zeta. now destruct (py_gt _ _).
Qed.

Lemma draw_id (te : Font -> string -> Z * Z) (target : Surface) (b : Button) :
  id (fst (draw te target b)) = id b.
Proof.
  unfold draw. cbv zeta. rewrite makeButton_shape. cbv zeta.
  unfold rendTxt. now destruct (zero_not_in (offset b)).
Qed.

Lemma step_id (o : Op) (b : Button) : id (step o b) = id b.
Proof.
  destruct o; simpl.
  - apply draw_id.
  - apply clicked_id.
  - now rewrite getSurf_frame.
  - now rewrite getRect_frame.
  - reflexivity.
Qed.

Lemma run_id (ops : list Op) (b : Button) : id (run ops b) = id b.
Proof.
  unfold run. revert b.
  induction ops as [|o ops IH]; intros b; simpl; [reflexivity|].
  rewrite IH. apply step_id.
Qed.

(** One construction takes the counter's value as id and leaves the counter
    one higher. *)
Lemma init_counter t s k n :
  id (fst (__init__ t s k n)) = n /\ snd (__init__ t s k n) = S n.
Proof.
  split; [apply (init_title t s k n) | reflexivity].
Qed.

Lemma construct_all_cons t s k (rest : list Call) (n : nat) :
  construct_all ((t, s, k) :: rest) n
  = let (b, n1) := __init__ t s k n in
    let (bs, n2) := construct_all rest n1 in
    (b :: bs, n2).
Proof. reflexivity. Qed.

Lemma construct_all_ids (calls : list Call) (n : nat) :
  map id (fst (construct_all calls n)) = seq n (List.length calls) /\
  snd (construct_all calls n) = (n + List.length calls)%nat.
Proof.
  revert n. induction calls as [|[[t s] k] rest IH]; intros n.
  - simpl. split; [reflexivity | lia].
  - rewrite construct_all_cons.
    destruct (init_counter t s k n) as [Hid Hn1].
    destruct (__init__ t s k n) as [b n1]. simpl in Hid, Hn1. subst n1.
    destruct (IH (S n)) as [Hids Hn2].
    destruct (construct_all rest (S n)) as [bs n2]. simpl in Hids, Hn2.
    cbn [fst snd map List.length seq].
    split; [now rewrite Hid, Hids | lia].
Qed.

Lemma seq_strictly_increasing (len start : nat) :
  StronglySorted lt (seq start len).
Proof.
  revert start. induction len as [|len IH]; intros start; simpl.
  - constructor.
  - constructor; [apply IH|].
    apply Forall_forall. intros x Hx. apply in_seq in Hx. lia.
Qed.

(** C6: the Buttons built by any sequence of constructor calls in a process
    (the counter starting at 0) have the ids 0, 1, 2, ... in construction
    order: pairwise distinct, strictly increasing, starting at 0; the
    counter ends above every id handed out, so a later construction cannot
    repeat one; and no call made on a Button afterwards changes its id. *)
Theorem ids_of_constructions (calls : list Call) :
  let bs := fst (construct_all calls 0%nat) in
  map id bs = seq 0 (List.length calls) /\
  NoDup (map id bs) /\
  StronglySorted lt (map id bs) /\
  Forall (fun i => (i < snd (construct_all calls 0%nat))%nat) (map id bs) /\
  (forall b ops, In b bs -> id (run ops b) = id b).
Proof.
  intros bs. destruct (construct_all_ids calls 0) as [Hids Hn].
  fold bs in Hids. rewrite Hids, Hn.
  split; [reflexivity|]. split; [apply seq_NoDup|].
  split; [apply seq_strictly_increasing|]. split.
  - apply Forall_forall. intros i Hi. apply in_seq in Hi. lia.
  - intros b ops _. apply run_id.
Qed.

Lemma ids_of_constructions_witness :
  map id (fst (construct_all demo_calls 0%nat)) = [0; 1; 2]%nat /\
  id (run [OpClicked 10; OpSetHovered true]
        (fst (__init__ (Some "Quit") (Some (85, 35)) no_kwargs 0%nat)))
  = 0%nat.
Proof.
  split.
  - exact (proj1 (ids_of_constructions demo_calls)).
  - apply (proj2 (proj2 (proj2 (proj2 (ids_of_constructions demo_calls))))
             (fst (__init__ (Some "Quit") (Some (85, 35)) no_kwargs 0%nat))
             [OpClicked 10; OpSetHovered true]).
    left. reflexivity.
Defined.

(** ** Drawing *)

Local Open Scope list_scope.

Lemma draw_eq (te : Font -> string -> Z * Z) (target : Surface) (b : Button) :
  draw te target b
  = let own :=
      MkSurface (surf_size (surf b)) (surf_alpha (surf b))
        (surf_drawn (surf b) ++ layers te b) in
    (set_surf own b, blit own (rect b) target).
Proof.
  unfold draw. cbv zeta. rewrite makeButton_shape. cbv zeta.
  unfold layers, titled_face, shadow_face, align_title, rendTxt, face_color.
  destruct (zero_not_in (offset b)); cbv beta iota zeta;
    unfold blit; cbn [surf_size surf_alpha surf_drawn fst snd];
    rewrite <- ?app_assoc; reflexivity.
Qed.

Lemma center_set_center (p : Z * Z) (r : Rect) : center (set_center p r) = p.
Proof. unfold center, set_center. simpl. apply pair_eta; lia. Qed.

Lemma left_set_left (x v : Z) (r : Rect) :
  left (set_centery v (set_left x r)) = x /\
  centery (set_centery v (set_left x r)) = v.
Proof. unfold left, centery, set_centery, set_left. simpl. split; lia. Qed.

Lemma right_set_right (x v : Z) (r : Rect) :
  right (set_centery v (set_right x r)) = x /\
  centery (set_centery v (set_right x r)) = v.
Proof. unfold right, centery, set_centery, set_right. simpl. split; lia. Qed.

(** X1: [draw] blits the face last onto the backing surface, at the origin;
    the face carries its fill and then the title.  The title is rendered
    antialiased in the selected colour when the button is hovered and in
    the unselected colour otherwise, whatever [highlight_button] is.  Its
    rectangle keeps the rendered extent and is placed by [align_text]:
    centred on the face for "center", 4 pixels inside the left or right
    edge and vertically centred for "left" and "right", and left at the
    origin for any other value. *)
Theorem draw_title_alignment (te : Font -> string -> Z * Z) (target : Surface)
    (b : Button) :
  let w := fst (size b) in
  let h := snd (size b) in
  exists face titleS titleR,
    last (surf_drawn (surf (fst (draw te target b)))) (Fill [])
    = Blit face (MkRect 0 0 w h) /\
    surf_drawn face = [Fill (face_color b); Blit titleS titleR] /\
    titleS
    = MkSurface (te (font b) (title b)) true
        [Glyphs (title b) true
           (if hovered b then font_selected b else font_unselected b)] /\
    (rw titleR = fst (te (font b) (title b)) /\
     rh titleR = snd (te (font b) (title b))) /\
    (align_text b = "center" -> center titleR = (half w, half h)) /\
    (align_text b = "left" -> left titleR = 4 /\ centery titleR = half h) /\
    (align_text b = "right" ->
       right titleR = w - 4 /\ centery titleR = half h) /\
    (align_text b <> "center" -> align_text b <> "left" ->
     align_text b <> "right" ->
       topleft titleR = (0, 0)).
Proof.
  intros w h. rewrite draw_eq. cbv zeta. simpl fst. simpl surf. simpl surf_drawn.
  unfold layers. rewrite app_assoc, last_last.
  exists (titled_face te b), (fst (rendTxt te b)),
    (align_title (align_text b)
       (get_rect (fill (face_color b) (convert (new_Surface (size b)))))
       (get_rect (fst (rendTxt te b)))).
  split; [reflexivity|]. split; [reflexivity|]. split.
  { unfold rendTxt, render, getColors. simpl. now destruct (hovered b). }
  split.
  { unfold align_title. split_ifs; split; reflexivity. }
  split; [|split; [|split]].
  - intros ->. unfold align_title. cbn [String.eqb Ascii.eqb Bool.eqb].
    now rewrite center_set_center.
  - intros ->. unfold align_title. cbn [String.eqb Ascii.eqb Bool.eqb].
    destruct (left_set_left
                (left (get_rect (fill (face_color b) (convert (new_Surface (size b))))) + 4)
                (centery (get_rect (fill (face_color b) (convert (new_Surface (size b))))))
                (get_rect (fst (rendTxt te b)))) as [Hl Hc].
    rewrite Hl, Hc. split; reflexivity.
  - intros ->. unfold align_title. cbn [String.eqb Ascii.eqb Bool.eqb].
    destruct (right_set_right
                (right (get_rect (fill (face_color b) (convert (new_Surface (size b))))) - 4)
                (centery (get_rect (fill (face_color b) (convert (new_Surface (size b))))))
                (get_rect (fst (rendTxt te b)))) as [Hr Hc].
    rewrite Hr, Hc. split; reflexivity.
  - intros Hc Hl Hr. unfold align_title.
    destruct (String.eqb_spec (align_text b) "center"); [contradiction|].
    destruct (String.eqb_spec (align_text b) "left"); [contradiction|].
    destruct (String.eqb_spec (align_text b) "right"); [contradiction|].
    reflexivity.
Qed.

Lemma draw_title_alignment_witness :
  exists face titleS titleR,
    last (surf_drawn (surf (fst (draw (fun _ _ => (30, 12)) (new_Surface (680, 420))
                                   default_button)))) (Fill [])
    = Blit face (MkRect 0 0 60 20) /\
    surf_drawn face = [Fill [70; 130; 180]; Blit titleS titleR] /\
    titleR = MkRect 15 4 30 12.
Proof.
  destruct (draw_title_alignment (fun _ _ => (30, 12)) (new_Surface (680, 420))
              default_button)
    as (face & titleS & titleR & Hlast & Hface & _ & [Hw Hh] & Hc & _).
  exists face, titleS, titleR.
  split; [exact Hlast|]. split; [exact Hface|].
  specialize (Hc eq_refl). destruct titleR as [x y w0 h0].
  change (w0 = 30) in Hw. change (h0 = 12) in Hh. subst w0 h0.
  change ((x + 15, y + 6) = (30, 10)) in Hc.
  injection Hc as Hx Hy. f_equal; lia.
Defined.

(** X2: [draw] assigns [surf] and nothing else, and keeps the extent and
    alpha flag of the backing surface.  It adds to what is already drawn
    there, without clearing: the shadow at the offset first when neither
    offset component is zero, then the titled face at the origin; with a
    zero in the offset only the face.  The backing surface as it is then is
    blitted onto the target at the button's rectangle. *)
Theorem draw_layers (te : Font -> string -> Z * Z) (target : Surface)
    (b : Button) :
  let b' := fst (draw te target b) in
  let face_rect := MkRect 0 0 (fst (size b)) (snd (size b)) in
  let shadow_rect :=
    MkRect (fst (offset b)) (snd (offset b)) (fst (size b)) (snd (size b)) in
  b' = set_surf (surf b') b /\
  surf_size (surf b') = surf_size (surf b) /\
  surf_alpha (surf b') = surf_alpha (surf b) /\
  (fst (offset b) <> 0 /\ snd (offset b) <> 0 ->
     surf_drawn (surf b')
     = surf_drawn (surf b)
       ++ [Blit (shadow_face b) shadow_rect; Blit (titled_face te b) face_rect]) /\
  (fst (offset b) = 0 \/ snd (offset b) = 0 ->
     surf_drawn (surf b')
     = surf_drawn (surf b) ++ [Blit (titled_face te b) face_rect]) /\
  snd (draw te target b) = blit (surf b') (rect b) target.
Proof.
  cbv zeta. rewrite draw_eq. cbv zeta. simpl fst. simpl snd.
  split; [reflexivity|]. split; [reflexivity|]. split; [reflexivity|].
  split; [|split; [|reflexivity]].
  - intros H. apply zero_not_in_true in H. simpl. unfold layers. now rewrite H.
  - intros H. apply zero_not_in_false in H. simpl. unfold layers. now rewrite H.
Qed.

Lemma draw_layers_witness :
  let te := fun (_ : Font) (_ : string) => (30, 12) in
  surf_drawn (surf (fst (draw te (new_Surface (680, 420)) default_button)))
  = [Fill [0; 0; 0; 0];
     Blit (shadow_face default_button) (MkRect 3 2 60 20);
     Blit (titled_face te default_button) (MkRect 0 0 60 20)].
Proof.
  intros te.
  apply (proj1 (proj2 (proj2 (proj2
           (draw_layers te (new_Surface (680, 420)) default_button))))).
  split; discriminate.
Defined.

Lemma layers_set_surf te (s : Surface) (b : Button) :
  layers te (set_surf s b) = layers te b.
Proof. reflexivity. Qed.

(** X3: [n] successive draws leave [n] copies of the button's layers on
    the backing surface, on top of what was there, and [n] blits on the
    target: nothing is cleared between frames. *)
Theorem draws_accumulate (te : Font -> string -> Z * Z) (n : nat)
    (target : Surface) (b : Button) :
  let b' := fst (draws te n target b) in
  let target' := snd (draws te n target b) in
  surf_drawn (surf b') = surf_drawn (surf b) ++ List.concat (repeat (layers te b) n) /\
  List.length (surf_drawn target') = (List.length (surf_drawn target) + n)%nat /\
  surf_size target' = surf_size target.
Proof.
  cbv zeta. revert target b.
  induction n as [|n IH]; intros target b.
  - simpl. rewrite app_nil_r. repeat split. lia.
  - cbn [draws]. rewrite draw_eq. cbv zeta.
    set (own := MkSurface _ _ _).
    destruct (IH (blit own (rect b) target) (set_surf own b)) as (Hd & Hl & Hs).
    rewrite Hd, Hl, Hs. rewrite layers_set_surf.
    split; [|split].
    + simpl. now rewrite <- app_assoc.
    + unfold blit. simpl. rewrite length_app. simpl. lia.
    + reflexivity.
Qed.

(** ** The click-rate limiter over many calls *)

Lemma accepted_unarmed (t : Z) (rest : list Z) (b : Button) :
  py_truthy (_clicked b) = false ->
  accepted (t :: rest) b = t :: accepted rest (set_clicked (Some t) b).
Proof. intros H. cbn [accepted]. now rewrite (clicked_unarmed t b H). Qed.

Lemma accepted_after_permit (readings : list Z) :
  forall (p : Z) (b : Button),
    StronglySorted Z.le readings ->
    Forall (fun t => t <> 0) readings ->
    after_permit p readings b ->
    Forall (gap p) (accepted readings b) /\
    StronglySorted gap (accepted readings b).
Proof.
  induction readings as [|t rest IH]; intros p b Hsorted Hnz Hinv.
  - simpl. split; constructor.
  - apply StronglySorted_inv in Hsorted. destruct Hsorted as [Hrest Hle].
    apply Forall_cons_iff in Hnz. destruct Hnz as [Ht Hnz].
    destruct Hinv as [(Hc & Hp & Hge) | (Hc & Hgap)].
    + (* armed at [p] *)
      apply Forall_cons_iff in Hge. destruct Hge as [Hpt Hge].
      cbn [accepted].
      destruct (Z_lt_le_dec 500 (t - p)) as [Hexp | Hwait].
      * rewrite (clicked_expired t p b Hc Hp Hexp).
        apply IH; try assumption. right. split; [reflexivity|].
        rewrite Forall_forall in *. intros x Hx. unfold gap.
        specialize (Hle x Hx). lia.
      * rewrite (clicked_waiting t p b Hc Hp Hwait).
        apply IH; try assumption. left. repeat split; assumption.
    + (* cleared after [p] *)
      apply Forall_cons_iff in Hgap. destruct Hgap as [Hpt Hgap].
      rewrite accepted_unarmed by (now rewrite Hc).
      destruct (IH t (set_clicked (Some t) b) Hrest Hnz) as [Hall Hss].
      { left. repeat split; assumption. }
      split.
      * constructor; [exact Hpt|].
        rewrite Forall_forall in *. intros x Hx. unfold gap in *.
        specialize (Hall x Hx). lia.
      * constructor; assumption.
Qed.

(** X4: on a clock that never goes back and never reads 0, started with no
    timer (or the timestamp 0), any two calls of [clicked] that are
    permitted lie more than 500ms apart, however many calls are made and
    whenever. *)
Theorem accepted_spaced (readings : list Z) (b : Button) :
  py_truthy (_clicked b) = false ->
  StronglySorted Z.le readings ->
  Forall (fun t => t <> 0) readings ->
  StronglySorted gap (accepted readings b).
Proof.
  intros Hclear Hsorted Hnz.
  destruct readings as [|t rest]; [constructor|].
  rewrite (accepted_unarmed t rest b Hclear).
  apply StronglySorted_inv in Hsorted. destruct Hsorted as [Hrest Hle].
  apply Forall_cons_iff in Hnz. destruct Hnz as [Ht Hnz].
  destruct (accepted_after_permit rest t (set_clicked (Some t) b) Hrest Hnz)
    as [Hall Hss].
  { left. repeat split; assumption. }
  constructor; assumption.
Qed.

Lemma accepted_spaced_witness :
  accepted held_readings default_button = [10; 610; 1210] /\
  StronglySorted gap (accepted held_readings default_button).
Proof.
  split; [reflexivity|].
  apply (accepted_spaced held_readings default_button).
  - reflexivity.
  - unfold held_readings.
    repeat (constructor; [|repeat (constructor; [lia|]); constructor]).
    constructor.
  - unfold held_readings. repeat (constructor; [lia|]). constructor.
Defined.

(** X5: while the clock reads 0 (pygame's clock before its time module is
    initialised), every call of [clicked] is permitted, from any state in
    which the timer is absent or 0: the limiter never engages. *)
Theorem clicks_clock_stuck_at_zero (n : nat) (b : Button) :
  py_truthy (_clicked b) = false ->
  fst (clicks (repeat 0 n) b) = repeat false n /\
  accepted (repeat 0 n) b = repeat 0 n.
Proof.
  revert b. induction n as [|n IH]; intros b Hclear; [split; reflexivity|].
  cbn [repeat clicks accepted].
  rewrite (clicked_unarmed 0 b Hclear).
  destruct (IH (set_clicked (Some 0) b) eq_refl) as [Hc Ha].
  destruct (clicks (repeat 0 n) (set_clicked (Some 0) b)) as [rs b'].
  simpl in Hc. simpl. now rewrite Hc, Ha.
Qed.

Lemma clicks_clock_stuck_at_zero_witness :
  fst (clicks [0; 0; 0; 0; 0] default_button) = [false; false; false; false; false].
Proof.
  exact (proj1 (clicks_clock_stuck_at_zero 5 default_button eq_refl)).
Defined.

(** X6: once the timer holds a nonzero timestamp, no call is permitted
    before a call made more than 500ms after it; that call is disallowed
    too, and the call after it is permitted whatever the clock reads, and
    stores its own reading. *)
Theorem clicks_recovery (t : Z) (waiting : list Z) (t1 t2 : Z) (b : Button) :
  _clicked b = Some t -> t <> 0 ->
  Forall (fun w => w - t <= 500) waiting ->
  500 < t1 - t ->
  fst (clicks (waiting ++ [t1; t2]) b)
  = repeat true (List.length waiting) ++ [true; false] /\
  _clicked (snd (clicks (waiting ++ [t1; t2]) b)) = Some t2.
Proof.
  intros Ht Hnz Hw Hexp.
  induction waiting as [|w ws IH].
  - cbn [app clicks List.length repeat].
    rewrite (clicked_expired t1 t b Ht Hnz Hexp).
    rewrite (clicked_unarmed t2) by reflexivity. split; reflexivity.
  - apply Forall_cons_iff in Hw. destruct Hw as [Hw Hws].
    specialize (IH Hws). destruct IH as [IH1 IH2].
    cbn [app clicks List.length repeat].
    rewrite (clicked_waiting w t b Ht Hnz Hw).
    destruct (clicks (ws ++ [t1; t2]) b) as [rs b'].
    simpl in IH1, IH2. simpl. now rewrite IH1, IH2.
Qed.

Lemma clicks_recovery_witness :
  fst (clicks [1100; 1400; 1501; 1501] (set_clicked (Some 1000) default_button))
  = [true; true; true; false].
Proof.
  apply (proj1 (clicks_recovery 1000 [1100; 1400] 1501 1501
                  (set_clicked (Some 1000) default_button)
                  eq_refl ltac:(lia)
                  ltac:(repeat (constructor; [lia|]); constructor)
                  ltac:(lia))).
Defined.

(** ** Geometry of a constructed button *)

Lemma set_surf_surf (b : Button) : set_surf (surf b) b = b.
Proof. now destruct b. Qed.

Lemma set_rect_rect (b : Button) : set_rect (rect b) b = b.
Proof. now destruct b. Qed.

(** [getRect] reads [surf], [pos] and [v_attr] only. *)
Lemma getRect_twice (b : Button) : getRect (getRect b) = getRect b.
Proof.
  unfold getRect. cbv zeta.
  destruct (v_attr b =? "center")%string eqn:E1; simpl; rewrite ?E1; [reflexivity|].
  destruct (v_attr b =? "topleft")%string eqn:E2; simpl; rewrite ?E1, ?E2; [reflexivity|].
  destruct (v_attr b =? "topright")%string eqn:E3; simpl; rewrite ?E1, ?E2, ?E3;
    [reflexivity|].
  destruct (v_attr b =? "bottomleft")%string eqn:E4; simpl;
    rewrite ?E1, ?E2, ?E3, ?E4; [reflexivity|].
  destruct (v_attr b =? "bottomright")%string eqn:E5; simpl;
    rewrite ?E1, ?E2, ?E3, ?E4, ?E5; reflexivity.
Qed.

Lemma getSurf_getRect (b : Button) : surf (getSurf (getRect b)) = surf (getSurf b).
Proof.
  rewrite (getRect_frame b). unfold getSurf. cbv zeta. simpl.
  now destruct (zero_not_in (offset b)).
Qed.

Lemma getSurf_twice (b : Button) : getSurf (getSurf b) = getSurf b.
Proof.
  unfold getSurf. cbv zeta.
  destruct (zero_not_in (offset b)) eqn:E; simpl; rewrite E; reflexivity.
Qed.

(** [getSurf] does not read [surf]. *)
Lemma getSurf_set_surf (s : Surface) (b : Button) :
  getSurf (set_surf s b) = getSurf b.
Proof.
  unfold getSurf. cbv zeta. simpl. now destruct (zero_not_in (offset b)).
Qed.

(** What the constructor returns, before its two closing calls. *)
Lemma init_shape t s k n :
  exists b0, fst (__init__ t s k n) = getRect (getSurf b0) /\
             pos b0 = get (kw_pos k) (0, 0) /\
             v_attr b0 = get (kw_v_attr k) "topleft" /\
             size b0 = get s (60, 20) /\
             offset b0 = get (kw_offset k) (3, 2) /\
             hovered b0 = false /\ _clicked b0 = None.
Proof.
  unfold __init__, bind, nextid, ret. cbv beta iota zeta.
  set (b0 := MkButton _ _ _ _ _ _ _ _ _ _ _ _ _ _ _ _ _ _ _).
  exists b0. repeat split.
Qed.

(** X7: a freshly constructed Button is a fixed point of [getSurf] and of
    [getRect]: calling either again changes nothing.  After a [draw],
    [getSurf] throws the drawn layers away and restores the backing
    surface of construction. *)
Theorem constructed_fixed_point (t : option string) (s : option (Z * Z))
    (k : Kwargs) (n : nat) (te : Font -> string -> Z * Z) (target : Surface) :
  let b := fst (__init__ t s k n) in
  getSurf b = b /\ getRect b = b /\
  getSurf (fst (draw te target b)) = b.
Proof.
  intros b. destruct (init_shape t s k n) as (b0 & Hb & _). fold b in Hb.
  assert (Hs : getSurf b = b).
  { rewrite getSurf_frame. rewrite Hb at 1. rewrite getSurf_getRect, getSurf_twice.
    replace (surf (getSurf b0)) with (surf b)
      by (rewrite Hb, (getRect_frame (getSurf b0)); reflexivity).
    apply set_surf_surf. }
  split; [exact Hs|]. split.
  - rewrite Hb. apply getRect_twice.
  - rewrite draw_eq. cbv zeta. cbn [fst]. rewrite getSurf_set_surf. exact Hs.
Qed.

Lemma rect_within_self_extent (w h dx dy : Z) :
  within (MkRect 0 0 (w + dx) (h + dy)) (MkRect 0 0 w h) <-> 0 <= dx /\ 0 <= dy.
Proof. unfold within. simpl. lia. Qed.

(** X8: the pairs [makeButton] returns all lie within the backing surface
    of a constructed Button exactly when the offset has a zero component
    or both components are positive.  With neither component zero and one
    of them negative the backing surface is smaller than the face, in
    width or in height, and face and shadow are both clipped: neither of
    the two pairs lies within the backing surface. *)
Theorem layers_fit_backing_surface (t : option string) (s : option (Z * Z))
    (k : Kwargs) (n : nat) :
  let b := fst (__init__ t s k n) in
  let dx := fst (offset b) in
  let dy := snd (offset b) in
  (Forall (fun pair => within (get_rect (surf b)) (snd pair)) (makeButton b)
   <-> (dx = 0 \/ dy = 0 \/ (0 < dx /\ 0 < dy))) /\
  (dx <> 0 -> dy <> 0 -> dx < 0 \/ dy < 0 ->
     (fst (surf_size (surf b)) < fst (size b) \/
      snd (surf_size (surf b)) < snd (size b)) /\
     (exists face shadow, makeButton b = [face; shadow]) /\
     Forall (fun pair => ~ within (get_rect (surf b)) (snd pair)) (makeButton b)).
Proof.
  intros b dx dy.
  destruct (init_surf t s k n) as (Hs & _). fold b in Hs.
  rewrite makeButton_shape. cbv zeta.
  destruct (zero_not_in (offset b)) eqn:E.
  - pose proof E as E'. apply zero_not_in_true in E'. destruct E' as [Hx Hy].
    rewrite Hs, (getSurf_shadow b Hx Hy). fold dx dy in Hx, Hy |- *.
    split; [split|].
    + intros H. apply Forall_cons_iff in H. destruct H as [Hface _].
      unfold within in Hface. simpl in Hface. fold dx dy in Hface. lia.
    + intros [H | [H | [Hdx Hdy]]]; try contradiction.
      repeat constructor; simpl; fold dx dy; lia.
    + intros _ _ Hneg. split; [simpl; lia|]. split; [eauto|].
      constructor; [|constructor; [|constructor]];
        unfold within; simpl; fold dx dy; lia.
  - pose proof E as E'. apply zero_not_in_false in E'.
    rewrite Hs, (getSurf_plain b E'). fold dx dy in E'.
    split; [split|].
    + intros _. lia.
    + intros _. repeat constructor; simpl; lia.
    + intros Hx Hy. lia.
Qed.

Lemma layers_fit_backing_surface_witness :
  Forall (fun pair => within (get_rect (surf default_button)) (snd pair))
    (makeButton default_button) /\
  (let b := fst (__init__ None None (kw_offset_only (-3, 2)) 0%nat) in
   surf_size (surf b) = (57, 22) /\
   Forall (fun pair => ~ within (get_rect (surf b)) (snd pair)) (makeButton b)).
Proof.
  split.
  - apply (proj2 (proj1 (layers_fit_backing_surface None None no_kwargs 0%nat))).
    right. right. split; reflexivity.
  - cbv zeta. split; [reflexivity|].
    apply (proj2 (layers_fit_backing_surface None None (kw_offset_only (-3, 2))
                    0%nat)).
    + discriminate.
    + discriminate.
    + left. reflexivity.
Defined.

Lemma collidepoint_true (r : Rect) (p : Z * Z) :
  collidepoint r p = true
  <-> rx r <= fst p < rx r + rw r /\ ry r <= snd p < ry r + rh r.
Proof.
  unfold collidepoint. rewrite !andb_true_iff, !Z.leb_le, !Z.ltb_lt. lia.
Qed.

(** X9: for a Button constructed with the default anchor, the rectangle
    the harness tests the pointer against starts at [pos] and spans the
    backing surface: [size] enlarged by the offset when neither offset
    component is zero, [size] itself otherwise.  With the shadow on, a
    pointer over the shadow margin is over the button. *)
Theorem hit_region_default_anchor (t : option string) (s : option (Z * Z))
    (k : Kwargs) (n : nat) (p : Z * Z) :
  kw_v_attr k = None ->
  let b := fst (__init__ t s k n) in
  let x0 := fst (pos b) in
  let y0 := snd (pos b) in
  let w := fst (size b) in
  let h := snd (size b) in
  let dx := fst (offset b) in
  let dy := snd (offset b) in
  (dx <> 0 /\ dy <> 0 ->
     (collidepoint (rect b) p = true
      <-> x0 <= fst p < x0 + (w + dx) /\ y0 <= snd p < y0 + (h + dy))) /\
  (dx = 0 \/ dy = 0 ->
     (collidepoint (rect b) p = true
      <-> x0 <= fst p < x0 + w /\ y0 <= snd p < y0 + h)).
Proof.
  intros Hva b x0 y0 w h dx dy.
  destruct (init_shape t s k n) as (b0 & Hb & _ & Hv & _). fold b in Hb.
  rewrite Hva in Hv. simpl in Hv.
  assert (Hr : rect b = set_topleft (pos b) (get_rect (surf b))).
  { rewrite Hb. rewrite (getRect_frame (getSurf b0)) at 2 3. simpl.
    unfold getRect. cbv zeta.
    replace (v_attr (getSurf b0)) with "topleft"
      by (rewrite getSurf_frame; simpl; now rewrite Hv).
    reflexivity. }
  destruct (init_surf t s k n) as (Hs & _). fold b in Hs.
  split.
  - intros [Hx Hy]. rewrite Hr, Hs, (getSurf_shadow b Hx Hy).
    rewrite collidepoint_true. simpl. reflexivity.
  - intros Hz. rewrite Hr, Hs, (getSurf_plain b Hz).
    rewrite collidepoint_true. simpl. reflexivity.
Qed.

Lemma hit_region_default_anchor_witness :
  let b := fst (__init__ (Some "Quit") (Some (85, 35))
                  (kw_pos_only (30, 30)) 0%nat) in
  collidepoint (rect b) (50, 40) = true /\
  collidepoint (rect b) (116, 65) = true /\
  ~ collidepoint (rect b) (10, 10) = true.
Proof.
  intros b.
  assert (Hx : fst (offset b) <> 0) by (vm_compute; discriminate).
  assert (Hy : snd (offset b) <> 0) by (vm_compute; discriminate).
  pose proof (fun p =>
    proj1 (hit_region_default_anchor (Some "Quit") (Some (85, 35))
             (kw_pos_only (30, 30)) 0%nat p eq_refl) (conj Hx Hy)) as H.
  split; [|split].
  - apply (proj2 (H (50, 40))). vm_compute. repeat split; discriminate.
  - apply (proj2 (H (116, 65))). vm_compute. repeat split; discriminate.
  - intros Hc. apply (proj1 (H (10, 10))) in Hc. vm_compute in Hc.
    destruct Hc as [[Hc _] _]. now apply Hc.
Defined.

(** ** Defaults computed by the constructor *)

Lemma init_font t s k n :
  font (fst (__init__ t s k n))
  = SysFont (kw_font_name k)
      (get (kw_font_size k)
         (value_of (font_size_default (get s (60, 20)) (get t "button")) 0)).
Proof.
  unfold __init__, bind, nextid, ret. cbv beta iota zeta.
  set (b0 := MkButton _ _ _ _ _ _ _ _ _ _ _ _ _ _ _ _ _ _ _).
  cbn [fst].
  rewrite (getRect_frame (getSurf b0)). rewrite (getSurf_frame b0).
  reflexivity.
Qed.

Lemma thirds_are_floors_spec (count : nat) :
  forall n, thirds_are_floors count n = true ->
            forall i, n <= i < n + Z.of_nat count -> third_is_floor i = true.
Proof.
  induction count as [|count IH]; intros n H i Hi; [lia|].
  cbn [thirds_are_floors] in H. apply andb_true_iff in H. destruct H as [H0 H1].
  destruct (Z.eq_dec i n) as [-> | Hne]; [exact H0|].
  apply (IH (n + 1) H1). lia.
Qed.

(** The float quotient by 3 of every integer from 0 to 16383 truncates to
    the integer quotient: checked by evaluation, one integer at a time. *)
Lemma third_is_floor_checked :
  thirds_are_floors (Z.to_nat 16384) 0 = true.
Proof. vm_compute. reflexivity. Qed.

Lemma truediv_3_small (n : Z) :
  0 <= n <= 16383 -> py_int_float (truediv n 3) = Some (n / 3).
Proof.
  intros Hn.
  pose proof (thirds_are_floors_spec (Z.to_nat 16384) 0 third_is_floor_checked n)
    as H.
  rewrite Z2Nat.id in H by lia. specialize (H ltac:(lia)).
  unfold third_is_floor in H.
  destruct (py_int_float (truediv n 3)) as [q|]; [|discriminate H].
  apply Z.eqb_eq in H. now subst q.
Qed.

(** X10: for a Button constructed without a [font_size] keyword, with
    width plus height between 0 and 16383, the font size is that sum
    divided by 3, rounded down, minus the number of characters of the
    title argument.  For a default-titled Button that number is the 6 of
    "button", not the length of the title displayed, so the size does not
    depend on the id; and the size is 0 or less exactly when the title
    argument has at least as many characters as a third of width plus
    height. *)
Theorem default_font_size (t : option string) (s : option (Z * Z)) (k : Kwargs)
    (n : nat) (b : Button) :
  fst (new_Button t s k n) = Some b ->
  kw_font_size k = None ->
  let w := fst (size b) in
  let h := snd (size b) in
  let len := Z.of_nat (py_len (get t "button")) in
  0 <= w + h <= 16383 ->
  font_points (font b) = (w + h) / 3 - len /\
  (t = None -> font_points (font b) = (w + h) / 3 - 6) /\
  (font_points (font b) <= 0 <-> (w + h) / 3 <= len).
Proof.
  intros Hb Hfs w h len Hsum.
  destruct (new_Button_returns t s k n b Hb) as (Heq & _).
  destruct (init_surf t s k n) as (_ & Hsize & _). rewrite <- Heq in Hsize.
  pose proof (init_font t s k n) as Hf. rewrite <- Heq in Hf.
  rewrite Hfs, <- Hsize in Hf. cbn [get] in Hf. fold w h in Hf.
  assert (Hp : font_points (font b) = (w + h) / 3 - len).
  { pose proof (truediv_3_small (w + h) Hsum) as Ht. unfold w, h in Ht.
    rewrite Hf. cbn [font_points]. unfold font_size_default.
    rewrite Ht. reflexivity. }
  split; [exact Hp|]. split.
  - intros ->. rewrite Hp. reflexivity.
  - rewrite Hp. lia.
Qed.

Lemma default_font_size_witness :
  (exists b, fst (new_Button None None no_kwargs 11%nat) = Some b /\
             font_points (font b) = 20) /\
  (exists b, fst (new_Button (Some e_acute_title) None no_kwargs 0%nat) = Some b /\
             font_points (font b) = 23) /\
  (exists b, fst (new_Button (Some "abcdefghijklmnopqrstuvwxyz") None no_kwargs 0%nat)
             = Some b /\
             font_points (font b) <= 0).
Proof.
  split; [|split].
  - assert (H : fst (new_Button None None no_kwargs 11%nat)
                = Some (fst (__init__ None None no_kwargs 11%nat)))
      by (vm_compute; reflexivity).
    eexists. split; [exact H|].
    apply (proj1 (proj2 (default_font_size None None no_kwargs 11%nat _ H eq_refl
                           ltac:(vm_compute; split; discriminate)))).
    reflexivity.
  - assert (H : fst (new_Button (Some e_acute_title) None no_kwargs 0%nat)
                = Some (fst (__init__ (Some e_acute_title) None no_kwargs 0%nat)))
      by (vm_compute; reflexivity).
    eexists. split; [exact H|].
    apply (proj1 (default_font_size (Some e_acute_title) None no_kwargs 0%nat _ H
                    eq_refl ltac:(vm_compute; split; discriminate))).
  - assert (H : fst (new_Button (Some "abcdefghijklmnopqrstuvwxyz") None no_kwargs
                       0%nat)
                = Some (fst (__init__ (Some "abcdefghijklmnopqrstuvwxyz") None
                               no_kwargs 0%nat)))
      by (vm_compute; reflexivity).
    eexists. split; [exact H|].
    apply (proj2 (proj2 (proj2 (default_font_size
             (Some "abcdefghijklmnopqrstuvwxyz") None no_kwargs 0%nat _ H eq_refl
             ltac:(vm_compute; split; discriminate))))).
    vm_compute. discriminate.
Defined.

Lemma to_uint_not_Nil (n : nat) : Nat.to_uint n <> Decimal.Nil.
Proof.
  intros H. pose proof (DecimalNat.Unsigned.of_to n) as E. rewrite H in E.
  simpl in E. subst n. discriminate H.
Qed.

Lemma format_i_inj (n m : nat) : format_i n = format_i m -> n = m.
Proof.
  unfold format_i. intros H.
  apply DecimalNat.Unsigned.to_uint_inj.
  pose proof (NilZero.usu (Nat.to_uint n) (to_uint_not_Nil n)) as Hn.
  pose proof (NilZero.usu (Nat.to_uint m) (to_uint_not_Nil m)) as Hm.
  rewrite H in Hn. rewrite Hn in Hm. now injection Hm.
Qed.

Lemma default_title_inj (n m : nat) :
  ("button" ++ " " ++ format_i n)%string = ("button" ++ " " ++ format_i m)%string ->
  n = m.
Proof. simpl. intros H. injection H as H. now apply format_i_inj. Qed.

Lemma construct_all_default_tags (calls : list Call) (n : nat) :
  Forall (fun c : Call => get (fst (fst c)) "button" = "button") calls ->
  map tag (fst (construct_all calls n))
  = map (fun i => ("button" ++ " " ++ format_i i)%string)
      (seq n (List.length calls)).
Proof.
  revert n. induction calls as [|[[t s] k] rest IH]; intros n Hall; [reflexivity|].
  apply Forall_cons_iff in Hall. destruct Hall as [Ht Hrest]. simpl in Ht.
  rewrite construct_all_cons.
  destruct (init_title t s k n) as (_ & Htag & Htitle).
  destruct (init_counter t s k n) as [_ Hn1].
  destruct (__init__ t s k n) as [b n1]. simpl in Htag, Htitle, Hn1. subst n1.
  specialize (IH (S n) Hrest).
  destruct (construct_all rest (S n)) as [bs n2]. simpl in IH.
  cbn [fst map List.length seq]. rewrite IH. f_equal.
  rewrite Htag, Htitle, Ht. reflexivity.
Qed.

(** X11: the Buttons of a process that are all constructed with the default
    title (none supplied, or "button" itself) have pairwise distinct
    titles and tags. *)
Theorem default_tags_distinct (calls : list Call) :
  Forall (fun c : Call => get (fst (fst c)) "button" = "button") calls ->
  let bs := fst (construct_all calls 0%nat) in
  NoDup (map tag bs) /\ NoDup (map title bs).
Proof.
  intros Hall bs.
  assert (Htags : NoDup (map tag bs)).
  { unfold bs. rewrite (construct_all_default_tags calls 0 Hall).
    apply Injective_map_NoDup; [|apply seq_NoDup].
    intros i j. apply default_title_inj. }
  split; [exact Htags|].
  replace (map title bs) with (map tag bs); [exact Htags|].
  unfold bs. clear. generalize 0%nat.
  induction calls as [|[[t s] k] rest IH]; intros n; [reflexivity|].
  rewrite construct_all_cons.
  destruct (init_title t s k n) as (_ & Htag & _).
  destruct (init_counter t s k n) as [_ Hn1].
  destruct (__init__ t s k n) as [b n1]. simpl in Htag, Hn1. subst n1.
  specialize (IH (S n)).
  destruct (construct_all rest (S n)) as [bs n2]. simpl in IH.
  cbn [fst map]. now rewrite IH, Htag.
Qed.

Lemma default_tags_distinct_witness :
  NoDup (map tag (fst (construct_all
                         [(None, None, no_kwargs);
                          (Some "button", None, no_kwargs);
                          (None, Some (85, 35), no_kwargs)] 0%nat))).
Proof.
  apply (proj1 (default_tags_distinct
                  [(None, None, no_kwargs);
                   (Some "button", None, no_kwargs);
                   (None, Some (85, 35), no_kwargs)]
                  ltac:(repeat (constructor; [reflexivity|]); constructor))).
Defined.

(** ** Range of the derived hover colour *)







(** ** The demo's button loop *)

Lemma clicked_armed_result (ticks : Z) (b : Button) :
  py_truthy (_clicked b) = true ->
  fst (clicked ticks b) = true /\
  (snd (clicked ticks b) = b \/ snd (clicked ticks b) = set_clicked None b).
Proof.
  intros H. unfold clicked. rewrite H. simpl negb. cbv iota.
  destruct (_clicked b); [|discriminate H].
  cbv zeta. destruct (py_gt _ _); simpl; auto.
Qed.

(** [clicked] reads and writes the timer only. *)
Lemma clicked_frame (ticks : Z) (b : Button) :
  snd (clicked ticks b) = set_clicked (_clicked (snd (clicked ticks b))) b.
Proof.
  destruct (py_truthy (_clicked b)) eqn:E.
  - destruct (clicked_armed_result ticks b E) as [_ [-> | ->]];
      [now destruct b | reflexivity].
  - now rewrite (clicked_unarmed ticks b E).
Qed.

Lemma clicked_ext (ticks : Z) (b1 b2 : Button) :
  _clicked b1 = _clicked b2 ->
  fst (clicked ticks b1) = fst (clicked ticks b2) /\
  _clicked (snd (clicked ticks b1)) = _clicked (snd (clicked ticks b2)).
Proof.
  intros H. unfold clicked. rewrite <- H.
  destruct (py_truthy (_clicked b1)); simpl; [|split; reflexivity].
  destruct (_clicked b1) eqn:E; [|split; [reflexivity | simpl; congruence]].
  cbv zeta. destruct (py_gt _ _); simpl; split; congruence.
Qed.

Lemma accepted_ext (readings : list Z) :
  forall b1 b2, _clicked b1 = _clicked b2 ->
                accepted readings b1 = accepted readings b2.
Proof.
  induction readings as [|t rest IH]; intros b1 b2 H; [reflexivity|].
  cbn [accepted]. destruct (clicked_ext t b1 b2 H) as [Hr Hs].
  destruct (clicked t b1) as [r1 b1'], (clicked t b2) as [r2 b2'].
  simpl in Hr, Hs. subst r2. rewrite (IH b1' b2' Hs). reflexivity.
Qed.

Lemma events_key (U : Z) (key : nat) :
  (key < 3)%nat -> events U key = Some (U + Z.of_nat key + 1).
Proof.
  intros H. destruct key as [|[|[|key]]]; simpl; first [f_equal; lia | lia].
Qed.

Lemma events_no_key (U : Z) (key : nat) : (3 <= key)%nat -> events U key = None.
Proof.
  intros H. destruct key as [|[|[|key]]]; try lia. reflexivity.
Qed.

(** One pass of the loop body, by cases: [fire] is the condition under
    which an event is posted. *)
Lemma poll_button_eq (U : Z) (te : Font -> string -> Z * Z) (m_pos : Z * Z)
    (pressed : bool) (ticks : Z) (fr : Frame) (b : Button) :
  let inside := collidepoint (rect b) m_pos in
  let fire := inside && pressed && negb (py_truthy (_clicked b)) in
  let b1 := if inside && pressed then snd (clicked ticks b) else b in
  let drawn := draw te (screen fr) (set_hovered inside b1) in
  poll_button U te m_pos pressed ticks fr b
  = if fire then
      match events U (id b) with
      | Some e => Some (fst drawn, MkFrame (snd drawn) (queue fr ++ [e]))
      | None => None
      end
    else Some (fst drawn, MkFrame (snd drawn) (queue fr)).
Proof.
  cbv zeta. unfold poll_button.
  destruct (collidepoint (rect b) m_pos); [|simpl; now destruct (draw _ _ _)].
  destruct pressed; [|simpl; now destruct (draw _ _ _)].
  simpl andb.
  destruct (py_truthy (_clicked b)) eqn:E.
  - destruct (clicked_armed_result ticks b E) as [Hr _].
    destruct (clicked ticks b) as [r b1]. simpl in Hr. subst r. simpl.
    now destruct (draw _ _ _).
  - rewrite (clicked_unarmed ticks b E). simpl.
    destruct (events U (id b)); [|reflexivity].
    now destruct (draw _ _ _).
Qed.

(** X13: a pass of the loop body that ends without [KeyError] leaves
    [hovered] true exactly when the pointer is inside the button's
    rectangle, keeps [id] and [rect], and blits the button's backing
    surface onto the screen at [rect]; when the pointer is outside, or the
    mouse button is up, the timer and the event queue are as before. *)
Theorem poll_button_hover (U : Z) (te : Font -> string -> Z * Z)
    (m_pos : Z * Z) (pressed : bool) (ticks : Z) (fr fr' : Frame)
    (b b' : Button) :
  poll_button U te m_pos pressed ticks fr b = Some (b', fr') ->
  hovered b' = collidepoint (rect b) m_pos /\
  id b' = id b /\ rect b' = rect b /\
  screen fr' = blit (surf b') (rect b) (screen fr) /\
  (collidepoint (rect b) m_pos && pressed = false ->
     _clicked b' = _clicked b /\ queue fr' = queue fr).
Proof.
  rewrite poll_button_eq. cbv zeta.
  set (inside := collidepoint (rect b) m_pos).
  set (b1 := if inside && pressed then snd (clicked ticks b) else b).
  assert (Hb1 : b1 = set_clicked (_clicked b1) b).
  { unfold b1. destruct (inside && pressed); [apply clicked_frame | now destruct b]. }
  rewrite draw_eq. cbv zeta. cbn [fst snd].
  intros H.
  assert (Hb' : b' = set_surf (surf b') (set_hovered inside b1) /\
                 screen fr' = blit (surf b') (rect b1) (screen fr) /\
                 (inside && pressed = false -> queue fr' = queue fr)).
  { destruct (inside && pressed && negb (py_truthy (_clicked b))) eqn:Hfire.
    - destruct (events U (id b)); [|discriminate H].
      injection H as <- <-. repeat split.
      intros Hn. rewrite Hn in Hfire. discriminate Hfire.
    - injection H as <- <-. repeat split. }
  destruct Hb' as (Hb' & Hscr & Hq).
  rewrite Hb1 in Hb', Hscr. simpl in Hscr.
  split; [now rewrite Hb'|]. split; [now rewrite Hb'|].
  split; [now rewrite Hb'|]. split; [exact Hscr|].
  intros Hn. split; [|now apply Hq].
  rewrite Hb'. simpl. unfold b1. now rewrite Hn.
Qed.

Lemma poll_button_hover_witness :
  let te := fun (_ : Font) (_ : string) => (30, 12) in
  let fr := MkFrame (new_Surface (680, 420)) [] in
  exists b' fr',
    poll_button 24 te (1, 1) false 77 fr default_button = Some (b', fr') /\
    hovered b' = true /\ queue fr' = [].
Proof.
  intros te fr.
  destruct (poll_button 24 te (1, 1) false 77 fr default_button)
    as [[b' fr']|] eqn:E; [|discriminate E].
  exists b', fr'. split; [reflexivity|].
  destruct (poll_button_hover 24 te (1, 1) false 77 fr fr' default_button b' E)
    as (Hh & _ & _ & _ & Hq).
  split; [exact Hh|]. apply Hq. reflexivity.
Defined.

(** X14: a pass of the loop body posts an event exactly when the pointer is
    inside the rectangle, the mouse button is down and the timer is absent
    or 0.  The event then is [USEREVENT + id + 1], appended to the queue,
    and the timer takes the clock reading, provided the id is 0, 1 or 2;
    for any other id the pass ends in the [KeyError] of [events[button.id]].
    In every other case the pass succeeds and the queue is unchanged. *)
Theorem poll_button_event (U : Z) (te : Font -> string -> Z * Z)
    (m_pos : Z * Z) (pressed : bool) (ticks : Z) (fr : Frame) (b : Button) :
  let fire :=
    collidepoint (rect b) m_pos && pressed && negb (py_truthy (_clicked b)) in
  (fire = true -> (id b < 3)%nat ->
     exists b' fr',
       poll_button U te m_pos pressed ticks fr b = Some (b', fr') /\
       queue fr' = queue fr ++ [U + Z.of_nat (id b) + 1] /\
       _clicked b' = Some ticks) /\
  (fire = true -> (3 <= id b)%nat ->
     poll_button U te m_pos pressed ticks fr b = None) /\
  (fire = false ->
     exists b' fr',
       poll_button U te m_pos pressed ticks fr b = Some (b', fr') /\
       queue fr' = queue fr).
Proof.
  cbv zeta. rewrite poll_button_eq. cbv zeta.
  split; [|split].
  - intros Hfire Hid. rewrite Hfire, (events_key U (id b) Hid).
    eexists. eexists. split; [reflexivity|]. split; [reflexivity|].
    rewrite draw_eq. cbv zeta. cbn [fst].
    apply andb_true_iff in Hfire. destruct Hfire as [Hip Hclear].
    rewrite Hip. apply negb_true_iff in Hclear.
    now rewrite (clicked_unarmed ticks b Hclear).
  - intros Hfire Hid. now rewrite Hfire, (events_no_key U (id b) Hid).
  - intros Hfire. rewrite Hfire. eexists. eexists. split; reflexivity.
Qed.

Lemma poll_button_event_witness :
  let te := fun (_ : Font) (_ : string) => (30, 12) in
  let fr := MkFrame (new_Surface (680, 420)) [] in
  (exists b' fr',
     poll_button 24 te (1, 1) true 77 fr default_button = Some (b', fr') /\
     queue fr' = [25] /\ _clicked b' = Some 77) /\
  poll_button 24 te (1, 1) true 77 fr
    (fst (__init__ None None no_kwargs 3%nat)) = None.
Proof.
  intros te fr. split.
  - destruct (proj1 (poll_button_event 24 te (1, 1) true 77 fr default_button)
                eq_refl ltac:(vm_compute; lia))
      as (b' & fr' & H & Hq & Hc).
    exists b', fr'. split; [exact H|]. split; [exact Hq | exact Hc].
  - apply (proj1 (proj2 (poll_button_event 24 te (1, 1) true 77 fr
                           (fst (__init__ None None no_kwargs 3%nat))))).
    + reflexivity.
    + vm_compute. lia.
Defined.

(** A pass of the loop body over a button whose id is a key of [events]. *)
Lemma poll_button_ok (U : Z) (te : Font -> string -> Z * Z) (m_pos : Z * Z)
    (pressed : bool) (ticks : Z) (fr : Frame) (b : Button) :
  (id b < 3)%nat ->
  let polled := collidepoint (rect b) m_pos && pressed in
  let fire := polled && negb (py_truthy (_clicked b)) in
  exists b1 fr1,
    poll_button U te m_pos pressed ticks fr b = Some (b1, fr1) /\
    id b1 = id b /\ rect b1 = rect b /\
    _clicked b1 = _clicked (if polled then snd (clicked ticks b) else b) /\
    queue fr1 = queue fr ++ (if fire then [U + Z.of_nat (id b) + 1] else []) /\
    screen fr1 = blit (surf b1) (rect b) (screen fr).
Proof.
  intros Hid. cbv zeta. rewrite poll_button_eq. cbv zeta.
  rewrite (events_key U (id b) Hid). rewrite draw_eq. cbv zeta. cbn [fst snd].
  set (polled := collidepoint (rect b) m_pos && pressed).
  set (b1 := if polled then snd (clicked ticks b) else b).
  assert (Hb1 : id b1 = id b /\ rect b1 = rect b).
  { unfold b1. destruct polled; [|split; reflexivity].
    rewrite clicked_frame. split; reflexivity. }
  destruct Hb1 as [Hid1 Hrect1].
  destruct (polled && negb (py_truthy (_clicked b))).
  - eexists. eexists. split; [reflexivity|]. simpl.
    rewrite Hid1, Hrect1. repeat split.
  - eexists. eexists. split; [reflexivity|]. simpl.
    rewrite Hid1, Hrect1, app_nil_r. repeat split.
Qed.




Lemma hold_events_gen (U : Z) (te : Font -> string -> Z * Z) (m_pos : Z * Z)
    (readings : list Z) :
  forall (fr : Frame) (b : Button),
    collidepoint (rect b) m_pos = true -> (id b < 3)%nat ->
    exists b' fr',
      hold U te m_pos readings fr b = Some (b', fr') /\
      queue fr'
      = queue fr ++ map (fun _ => U + Z.of_nat (id b) + 1) (accepted readings b) /\
      id b' = id b /\ rect b' = rect b.
Proof.
  induction readings as [|t rest IH]; intros fr b Hin Hid.
  - exists b, fr. simpl. now rewrite app_nil_r.
  - destruct (poll_button_ok U te m_pos true t fr b Hid)
      as (b1 & fr1 & Hstep & Hid1 & Hrect1 & Hc1 & Hq1 & _).
    rewrite Hin in Hc1, Hq1. simpl andb in Hc1, Hq1.
    destruct (IH fr1 b1) as (b' & fr' & Hrun & Hq & Hid' & Hrect').
    { now rewrite Hrect1. }
    { now rewrite Hid1. }
    exists b', fr'. cbn [hold]. rewrite Hstep, Hrun.
    split; [reflexivity|].
    rewrite Hid', Hrect', Hid1, Hrect1. split; [|split; reflexivity].
    rewrite Hq, Hq1, Hid1.
    rewrite (accepted_ext rest b1 (snd (clicked t b)) Hc1).
    cbn [accepted].
    destruct (py_truthy (_clicked b)) eqn:E.
    + destruct (clicked_armed_result t b E) as [Hr _].
      destruct (clicked t b) as [r b2]. simpl in Hr. subst r. simpl.
      now rewrite app_nil_r.
    + rewrite (clicked_unarmed t b E). simpl. now rewrite <- app_assoc.
Qed.

(** X16: with the pointer inside the rectangle of a Button whose id is 0,
    1 or 2 and the mouse button held down, successive passes of the loop
    body never fail, and post the Button's event once for each clock
    reading at which [clicked] permits, and at no other pass.  On a clock
    that never goes back and never reads 0, and with no timer at the
    start, those readings lie more than 500ms apart. *)
Theorem hold_events (U : Z) (te : Font -> string -> Z * Z) (m_pos : Z * Z)
    (readings : list Z) (fr : Frame) (b : Button) :
  collidepoint (rect b) m_pos = true -> (id b < 3)%nat ->
  exists b' fr',
    hold U te m_pos readings fr b = Some (b', fr') /\
    queue fr'
    = queue fr ++ map (fun _ => U + Z.of_nat (id b) + 1) (accepted readings b) /\
    (py_truthy (_clicked b) = false -> StronglySorted Z.le readings ->
     Forall (fun t => t <> 0) readings ->
       StronglySorted gap (accepted readings b)).
Proof.
  intros Hin Hid.
  destruct (hold_events_gen U te m_pos readings fr b Hin Hid)
    as (b' & fr' & Hrun & Hq & _).
  exists b', fr'. split; [exact Hrun|]. split; [exact Hq|].
  intros Hclear Hsorted Hnz.
  destruct readings as [|t rest]; [constructor|].
  rewrite (accepted_unarmed t rest b Hclear).
  apply StronglySorted_inv in Hsorted. destruct Hsorted as [Hrest Hle].
  apply Forall_cons_iff in Hnz. destruct Hnz as [Ht Hnz].
  destruct (accepted_after_permit rest t (set_clicked (Some t) b) Hrest Hnz)
    as [Hall Hss].
  { left. repeat split; assumption. }
  constructor; assumption.
Qed.

Lemma hold_events_witness :
  let te := fun (_ : Font) (_ : string) => (30, 12) in
  let fr := MkFrame (new_Surface (680, 420)) [] in
  exists b' fr',
    hold 24 te (1, 1) held_readings fr default_button = Some (b', fr') /\
    queue fr' = [25; 25; 25].
Proof.
  intros te fr.
  destruct (hold_events 24 te (1, 1) held_readings fr default_button
              eq_refl ltac:(vm_compute; lia))
    as (b' & fr' & H & Hq & _).
  exists b', fr'. split; [exact H | exact Hq].
Defined.

(** ** The demo's event handler *)

Lemma click_buttons_spec (m_pos : Z * Z) (pressed : bool)
    (buttons : list Button) :
  forall d,
    click_buttons m_pos pressed buttons d = true
    <-> d = true \/
        (pressed = true /\
         exists button, In button buttons /\ id button = 0%nat /\
                        collidepoint (rect button) m_pos = true).
Proof.
  induction buttons as [|b rest IH]; intros d.
  - simpl. split; [auto | intros [H | (_ & x & [] & _)]; exact H].
  - cbn [click_buttons]. rewrite IH. clear IH.
    set (hit := collidepoint (rect b) m_pos && pressed).
    set (d' := if hit then _ else d).
    assert (Hd' : d' = if hit && Nat.eqb (id b) 0 then true else d).
    { unfold d'. destruct hit; [|reflexivity]. simpl.
      now destruct (Nat.eqb (id b) 0), (Nat.eqb (id b) 1), (Nat.eqb (id b) 2). }
    rewrite Hd'. clear Hd' d'.
    destruct (hit && Nat.eqb (id b) 0) eqn:E.
    + apply andb_true_iff in E. destruct E as [Hhit Hid].
      unfold hit in Hhit. apply andb_true_iff in Hhit. destruct Hhit as [Hc Hp].
      apply Nat.eqb_eq in Hid.
      split; [intros _ | auto].
      right. split; [exact Hp|]. exists b. simpl. auto.
    + split.
      * intros [H | (Hp & x & Hx & Hi & Hc)]; [auto|].
        right. split; [exact Hp|]. exists x. simpl. auto.
      * intros [H | (Hp & x & [Hx | Hx] & Hi & Hc)]; [auto | |].
        -- subst x. unfold hit in E. rewrite Hc, Hp, Hi in E. discriminate E.
        -- right. split; [exact Hp|]. exists x. auto.
Qed.

(** X17: under pygame's distinct event codes, handling one event sets
    [done] exactly when the event is QUIT, or a key press of Escape, or a
    mouse-button press that finds the button still down and the pointer
    inside the rectangle of a Button whose id is 0; otherwise [done] stays
    as it was.  A posted button event never sets it. *)
Theorem handle_event_done (QUIT KEYDOWN MOUSEBUTTONDOWN K_ESCAPE USEREVENT : Z)
    (m_pos : Z * Z) (pressed : bool) (buttons : list Button) (evt : Event)
    (st : Loop) :
  MOUSEBUTTONDOWN <> QUIT -> MOUSEBUTTONDOWN <> KEYDOWN ->
  ~ (USEREVENT + 1 <= MOUSEBUTTONDOWN <= USEREVENT + 3) ->
  done (handle_event QUIT KEYDOWN MOUSEBUTTONDOWN K_ESCAPE USEREVENT
          m_pos pressed buttons evt st) = true
  <-> done st = true \/
      evt_type evt = QUIT \/
      (evt_type evt = KEYDOWN /\ evt_key evt = K_ESCAPE) \/
      (evt_type evt = MOUSEBUTTONDOWN /\ pressed = true /\
       exists button, In button buttons /\ id button = 0%nat /\
                      collidepoint (rect button) m_pos = true).
Proof.
  intros Hq Hk Hu. unfold handle_event.
  destruct (Z.eqb_spec (evt_type evt) QUIT) as [E1 | E1]; [simpl; tauto|].
  assert (Hesc : (evt_type evt =? KEYDOWN) && (evt_key evt =? K_ESCAPE) = true
                 <-> evt_type evt = KEYDOWN /\ evt_key evt = K_ESCAPE)
    by (rewrite andb_true_iff, !Z.eqb_eq; reflexivity).
  destruct ((evt_type evt =? KEYDOWN) && (evt_key evt =? K_ESCAPE)) eqn:E2.
  { pose proof (proj1 Hesc eq_refl). simpl. tauto. }
  assert (E2' : ~ (evt_type evt = KEYDOWN /\ evt_key evt = K_ESCAPE))
    by (intros H; apply Hesc in H; discriminate H).
  clear Hesc E2.
  destruct (Z.eqb_spec (evt_type evt) (USEREVENT + 1)) as [E4 | E4];
    [cbn [done]; split; [tauto | intros [H | [H | [H | [H _]]]]; auto; try tauto; lia]|].
  destruct (Z.eqb_spec (evt_type evt) (USEREVENT + 2)) as [E5 | E5];
    [cbn [done]; split; [tauto | intros [H | [H | [H | [H _]]]]; auto; try tauto; lia]|].
  destruct (Z.eqb_spec (evt_type evt) (USEREVENT + 3)) as [E6 | E6];
    [cbn [done]; split; [tauto | intros [H | [H | [H | [H _]]]]; auto; try tauto; lia]|].
  destruct (Z.eqb_spec (evt_type evt) MOUSEBUTTONDOWN) as [E7 | E7].
  - cbn [done]. rewrite click_buttons_spec. split.
    + intros [H | H]; [auto|]. right. right. right. split; [exact E7 | exact H].
    + intros [H | [H | [H | [_ H]]]]; auto; tauto.
  - split; [tauto|]. intros [H | [H | [H | [H _]]]]; auto; tauto.
Qed.

Lemma handle_event_done_witness :
  done (handle_event 256 768 1025 27 32768 (31, 31) true
          (fst (construct_all
                  [(Some "Quit", Some (85, 35), kw_pos_only (30, 30))] 0%nat))
          (MkEvent 1025 0) (MkLoop false []))
  = true.
Proof.
  apply (proj2 (handle_event_done 256 768 1025 27 32768 (31, 31) true
                  (fst (construct_all
                          [(Some "Quit", Some (85, 35), kw_pos_only (30, 30))] 0%nat))
                  (MkEvent 1025 0) (MkLoop false [])
                  ltac:(lia) ltac:(lia) ltac:(lia))).
  right. right. right. split; [reflexivity|]. split; [reflexivity|].
  eexists. split; [left; reflexivity|]. split; reflexivity.
Defined.

(** X18: under pygame's distinct event codes, the event [poll_button]
    posts for the Button with id 0, 1 or 2 makes the handler print one
    line, naming Quit, New or Reset in that order of id, and changes
    nothing else: in particular the posted Quit event does not end the
    loop. *)
Theorem handle_posted_event (QUIT KEYDOWN MOUSEBUTTONDOWN K_ESCAPE USEREVENT : Z)
    (m_pos : Z * Z) (pressed : bool) (buttons : list Button) (key : nat)
    (k : Z) (st : Loop) :
  ~ (USEREVENT + 1 <= QUIT <= USEREVENT + 3) ->
  ~ (USEREVENT + 1 <= KEYDOWN <= USEREVENT + 3) ->
  (key < 3)%nat ->
  forall e, events USEREVENT key = Some e ->
  handle_event QUIT KEYDOWN MOUSEBUTTONDOWN K_ESCAPE USEREVENT m_pos pressed
    buttons (MkEvent e k) st
  = MkLoop (done st)
      (printed st
       ++ [nth key ["The Quit button was clicked"; "The New button was clicked";
                    "The Reset button was clicked"] ""%string]).
Proof.
  intros Hq Hk Hkey e He. unfold handle_event. cbn [evt_type evt_key].
  assert (Hrange : USEREVENT + 1 <= e <= USEREVENT + 3)
    by (rewrite (events_key USEREVENT key Hkey) in He; injection He as <-; lia).
  destruct (Z.eqb_spec e QUIT) as [E1 | _]; [lia|].
  destruct (Z.eqb_spec e KEYDOWN) as [E2 | _]; [lia|].
  cbn [andb].
  destruct key as [|[|[|key]]]; [| | |lia]; simpl in He; injection He as <-;
    cbn [nth].
  - rewrite Z.eqb_refl. reflexivity.
  - destruct (Z.eqb_spec (USEREVENT + 2) (USEREVENT + 1)); [lia|].
    rewrite Z.eqb_refl. reflexivity.
  - destruct (Z.eqb_spec (USEREVENT + 3) (USEREVENT + 1)); [lia|].
    destruct (Z.eqb_spec (USEREVENT + 3) (USEREVENT + 2)); [lia|].
    rewrite Z.eqb_refl. reflexivity.
Qed.

Lemma handle_posted_event_witness :
  handle_event 256 768 1025 27 32768 (0, 0) false [] (MkEvent 32769 0)
    (MkLoop false [])
  = MkLoop false ["The Quit button was clicked"].
Proof.
  apply (handle_posted_event 256 768 1025 27 32768 (0, 0) false [] 0%nat 0
           (MkLoop false []) ltac:(lia) ltac:(lia) ltac:(lia) 32769 eq_refl).
Defined.
